(** * The GNU C/C++ makefile target of Premake (gnu_cpp.c)

    A shallow embedding of [build/premake/src/Src/gnu_cpp.c] and the
    properties its specification states about the emitted makefile.

    The C file talks to three collaborators that live elsewhere in the
    repository: the project model ([prj_*] accessors with their
    "selected configuration" cursor), the path and string utilities
    ([path_*], [matches], [endsWith], [is_cpp], [print_list]) and the output
    sink ([io_*]).  The model is embedded as records, the cursor and the
    shared scratch buffer [g_buffer] as explicit state, and the sink as the
    sequence of strings handed to [io_print]. *)

From Stdlib Require Import String Ascii List ZArith Bool Arith Lia.
Import ListNotations.
Open Scope string_scope.

Set Implicit Arguments.

(** ** Characters that cannot be written inside a string literal *)

Definition nl : string := String (ascii_of_nat 10) EmptyString.
Definition tab : string := String (ascii_of_nat 9) EmptyString.
Definition dq : string := String (ascii_of_nat 34) EmptyString.
Definition bs : string := String (ascii_of_nat 92) EmptyString.

(** ** Data model *)

(** One build configuration of a package: what the [prj_get_*] accessors
    report while this configuration is selected. *)
Record Config := mkConfig {
  cfgname : string;
  bindir : string;
  libdir : string;
  objdir : string;
  outdir : string;
  defines : list string;
  incpaths : list string;
  flags : list string;
  buildoptions : list string;
  linkoptions : list string;
  libpaths : list string;
  target : string
}.

Record Package := mkPackage {
  pkgname : string;
  pkgpath : string;
  language : string;
  kind : string;
  configs : list Config;
  files : list string;
  links : list string;
  cxxtestpath : string;
  cxxtest_options : string;
  cxxtest_rootoptions : string;
  cxxtest_rootfile : string
}.

Definition Project := list Package.

(** [g_cc] is a nullable C string; [os] is the identity [os_is] compares
    against. *)
Record PlatformContext := mkPlatform {
  os : string;
  g_cc : option string;
  g_verbose : bool
}.

(** Path utilities and tables declared in premake.h, gnu.h and os.h. *)
Class Externals := {
  path_join : string -> string -> string -> string;
  path_getname : string -> string;
  path_getbasename : string -> string;
  path_getextension : string -> option string;
  path_getdir : string -> string;
  path_translate : string -> option string -> string;
  path_swapextension : string -> string -> string -> string;
  gnu_pkgOwnsPath : Project -> Package -> bool;
  CPP_EXT : list string;
  DOT_MAKE : string
}.

(** The configuration reported when the cursor points past the declared
    configurations (the C code would read past the array there). *)
Definition no_config : Config :=
  mkConfig "" "" "" "" "" [] [] [] [] [] [] "".

Definition no_package : Package :=
  mkPackage "" "" "" "" [] [] [] "" "" "" "".

(** ** Mutable state and output *)

(** [cursor] is the index given to the last [prj_select_config];
    [g_buffer] the shared scratch buffer; [io_name] the open makefile. *)
Record State := mkState {
  cursor : nat;
  g_buffer : string;
  io_name : option string
}.

(** A C string pointer as returned by the list callbacks: [NULL], the
    address of [g_buffer], or a string owned by the model. *)
Inductive cptr :=
| NULL
| PBuf
| PStr (s : string).

Record Res (A : Type) := mkRes {
  val : A;
  st : State;
  wr : list string
}.

(** State passing with an output log: one log entry per [io_print]. *)
Definition M (A : Type) := State -> Res A.

Definition ret {A} (a : A) : M A := fun s => mkRes a s [].

Definition bind {A B} (m : M A) (f : A -> M B) : M B :=
  fun s =>
    let r := m s in
    let r' := f (val r) (st r) in
    mkRes (val r') (st r') (wr r ++ wr r').

Declare Scope monad_scope.
Delimit Scope monad_scope with monad.
Notation "x <- m ;; k" := (bind m (fun x => k))
  (at level 61, m at next level, right associativity) : monad_scope.
Notation "m ;; k" := (bind m (fun _ => k))
  (at level 61, right associativity) : monad_scope.
Open Scope monad_scope.

Definition when (b : bool) (m : M unit) : M unit :=
  if b then m else ret tt.

(** Modelled from the spec: the output sink (io_print, io_openfile,
    io_closefile) is defined outside this file; it receives the emitted
    text in order.  [io_print] is given the text already formatted. *)
Definition io_print (s : string) : M unit :=
  fun s0 => mkRes tt s0 [s].

Definition io_openfile (name : string) : M unit :=
  fun s => mkRes tt (mkState (cursor s) (g_buffer s) (Some name)) [].

Definition io_closefile : M unit :=
  fun s => mkRes tt (mkState (cursor s) (g_buffer s) None) [].

(** Modelled from the spec: prj_select_config is defined outside this
    file; after it the accessors report the values of configuration [i]. *)
Definition prj_select_config (i : nat) : M unit :=
  fun s => mkRes tt (mkState i (g_buffer s) (io_name s)) [].

(** [strcpy(g_buffer, src)] and [strcat(g_buffer, src)]. *)
Definition strcpy_buf (src : string) : M unit :=
  fun s => mkRes tt (mkState (cursor s) src (io_name s)) [].

Definition strcat_buf (src : string) : M unit :=
  fun s => mkRes tt (mkState (cursor s) (g_buffer s ++ src) (io_name s)) [].

(** Reading through a pointer in the current state. *)
Definition deref (s : State) (p : cptr) : option string :=
  match p with
  | NULL => None
  | PBuf => Some (g_buffer s)
  | PStr v => Some v
  end.

(** The text the sink holds once the log is written out. *)
Definition text (chunks : list string) : string := String.concat "" chunks.

(** ** String helpers *)

(** Modelled from the spec: matches is defined outside this file; it
    compares two C strings for equality.  The second argument is always a
    literal here; a NULL first argument matches nothing. *)
Definition matches (str0 : option string) (str1 : string) : bool :=
  match str0 with
  | Some a => String.eqb a str1
  | None => false
  end.

(** Modelled from the spec: endsWith is defined outside this file; it
    tells whether [haystack] ends in [needle]. *)
Definition endsWith (haystack needle : string) : bool :=
  let n := String.length haystack in
  let m := String.length needle in
  (m <=? n)%nat && String.eqb (substring (n - m) m haystack) needle.

Section GnuCpp.

Context {U : Externals}.
Variable ctx : PlatformContext.
Variable prj : Project.
(** The package selected by the caller before [gnu_cpp] runs. *)
Variable pkg : Package.

(** Modelled from the spec: os_is is declared in os.h; it compares the
    host OS identity with [name]. *)
Definition os_is (name : string) : bool := String.eqb (os ctx) name.

(** Modelled from the spec: is_cpp is declared in premake.h and defined
    outside this file; a source is compilable when its extension is in the
    table of C, C++, assembly and netwide-assembler extensions. *)
Definition is_cpp (name : string) : bool :=
  match path_getextension name with
  | None => false
  | Some ext => existsb (fun e => String.eqb ext e) CPP_EXT
  end.

(** *** Project model accessors

    The prj_* accessors are defined outside this file.  They read the
    selected package and, for per-configuration values, the configuration
    under the cursor. *)

(** Modelled from the spec: prj_is_kind compares the kind of the
    selected package. *)
Definition prj_is_kind (k : string) : bool := matches (Some (kind pkg)) k.

(** Modelled from the spec: prj_is_lang compares the language of the
    selected package. *)
Definition prj_is_lang (l : string) : bool := matches (Some (language pkg)) l.

(** Modelled from the spec: prj_get_numconfigs counts the declared
    configurations. *)
Definition prj_get_numconfigs : nat := length (configs pkg).

(** Modelled from the spec: the configuration the accessors report, the
    one under the cursor. *)
Definition my_cfg (s : State) : Config := nth (cursor s) (configs pkg) no_config.

(** Modelled from the spec: a per-configuration accessor
    (prj_get_cfgname, prj_get_bindir, prj_get_defines, ...) reads field
    [f] of the selected configuration. *)
Definition prj_get (A : Type) (f : Config -> A) : M A :=
  fun s => mkRes (f (my_cfg s)) s [].

(** Modelled from the spec: prj_has_flag tells whether the selected
    configuration carries the named flag. *)
Definition prj_has_flag (flag : string) : M bool :=
  prj_get (fun c => existsb (fun f => String.eqb f flag) (flags c)).

(** Modelled from the spec: prj_find_package looks the name up among
    the packages of the project, in declaration order. *)
Fixpoint find_package (ps : list Package) (name : string) (i : Z) : Z :=
  match ps with
  | [] => (-1)%Z
  | p :: rest =>
      if matches (Some name) (pkgname p) then i
      else find_package rest name (i + 1)%Z
  end.

(** Index of the sibling package called [name], or -1. *)
Definition prj_find_package (name : string) : Z := find_package prj name 0%Z.

(** Modelled from the spec: the package at index [i]. *)
Definition prj_get_package (i : Z) : Package := nth (Z.to_nat i) prj no_package.

(** Modelled from the spec: prj_get_language_for gives the language of
    sibling [i]. *)
Definition prj_get_language_for (i : Z) : string := language (prj_get_package i).

(** Modelled from the spec: [prj_get_config_for(i)->kind] is the kind of
    sibling [i]; the data model keeps one kind per package. *)
Definition prj_get_kind_for (i : Z) : string := kind (prj_get_package i).

(** Modelled from the spec: prj_get_target_for gives the target path of
    sibling [i] under the selected configuration. *)
Definition prj_get_target_for (i : Z) : M string :=
  fun s => mkRes (target (nth (cursor s) (configs (prj_get_package i)) no_config)) s [].

(** *** print_list *)

(** What a callback argument of print_list does to one entry: a NULL
    callback passes the entry through. *)
Definition call (func : option (string -> M cptr)) (x : string) : M cptr :=
  match func with
  | Some f => f x
  | None => ret (PStr x)
  end.

(** The text print_list gives a kept entry: [infix] goes before every
    entry but the first. *)
Definition entry (i : nat) (prefix postfix infix v : string) : string :=
  (if (0 <? i)%nat then infix else "") ++ prefix ++ v ++ postfix.

(** Modelled from the spec: print_list is defined outside this file.  It
    walks [list], maps each entry through [func], skips the entries mapped
    to NULL and prints every other one between [prefix] and [postfix];
    [i] counts the entries printed so far.  The entry is logged as the
    callback returned it.  [listCppTargets] prepares its recipes as printf
    formats (the doubled percent signs of lines 411 and 434), so a sink
    that formats what it is given prints those recipes differently; no
    theorem below depends on the percent signs of a printed recipe. *)
Fixpoint print_list_from (i : nat) (list : list string)
    (prefix postfix infix : string) (func : option (string -> M cptr)) : M unit :=
  match list with
  | [] => ret tt
  | x :: rest =>
      value <- call func x ;;
      fun s =>
        match deref s value with
        | None => print_list_from i rest prefix postfix infix func s
        | Some v =>
            (io_print (entry i prefix postfix infix v) ;;
             print_list_from (S i) rest prefix postfix infix func) s
        end
  end.

Definition print_list := print_list_from 0.

(** *** The list callbacks (gnu_cpp.c lines 299-516) *)

Definition filterLinks (name : string) : M cptr :=
  let i := prj_find_package name in
  if (0 <=? i)%Z then
    let lang := prj_get_language_for i in
    let kind := prj_get_kind_for i in
    if matches (Some kind) "cxxtestgen" then ret NULL
    else if matches (Some lang) "c++" || matches (Some lang) "c" then
      t <- prj_get_target_for i ;; ret (PStr t)
    else ret NULL
  else
    strcpy_buf "-l" ;;
    strcat_buf name ;;
    ret PBuf.

Definition listCppSources (name : string) : M cptr :=
  if is_cpp name then
    strcpy_buf (path_getbasename name) ;;
    strcat_buf ".o" ;;
    ret PBuf
  else ret NULL.

Definition listCxxTestSources (name : string) : M cptr :=
  if endsWith name ".h" then ret (PStr (path_swapextension name ".h" ".cpp"))
  else ret NULL.

Definition listRcSources (name : string) : M cptr :=
  let ext := path_getextension name in
  if matches ext ".rc" then
    strcpy_buf (path_getbasename name) ;;
    strcat_buf ".res" ;;
    ret PBuf
  else ret NULL.

Definition listCppTargets (name : string) : M cptr :=
  let ext := path_getextension name in
  let basename := path_getbasename name in
  let verbose := g_verbose ctx in
  if is_cpp name then
    strcpy_buf ("$(OBJDIR)/" ++ basename ++ ".o: " ++ name ++ nl) ;;
    strcat_buf (tab ++ "-") ;;
    when (negb verbose) (strcat_buf "@") ;;
    strcat_buf ("$(CMD_MKOBJDIR)" ++ nl) ;;
    when (negb verbose) (strcat_buf (tab ++ "@echo $(notdir $<)" ++ nl)) ;;
    strcat_buf tab ;;
    when (negb verbose) (strcat_buf "@") ;;
    (if matches (g_cc ctx) "dmc" then
       if matches ext ".c" then
         strcat_buf ("dmc $(CFLAGS) -o $@ -c $<" ++ nl)
       else if negb (matches ext ".s") then
         strcat_buf ("dmc -cpp -Ae -Ar -mn $(CXXFLAGS) -o $@ -c $<" ++ nl)
       else ret tt
     else
       if matches ext ".s" then
         strcat_buf ("$(CC) -x assembler-with-cpp $(CPPFLAGS) -o $@ -c $<" ++ nl)
       else if matches ext ".c" then
         strcat_buf ("$(CC) $(CFLAGS) -MF $(OBJDIR)/$(<F:%%.c=%%.d) -o $@ -c $<" ++ nl)
       else if matches ext ".asm" then
         let input_dir := path_translate (path_getdir name) None ++ "/" in
         let opts := if negb (os_is "windows") then "-dDONT_USE_UNDERLINE=1 " else "" in
         strcat_buf "nasm " ;; strcat_buf opts ;;
         strcat_buf " -i" ;; strcat_buf input_dir ;;
         strcat_buf (" -f elf -o $@ $<" ++ nl) ;;
         strcat_buf tab ;;
         when (negb verbose) (strcat_buf "@") ;;
         strcat_buf "nasm " ;; strcat_buf opts ;;
         strcat_buf " -i" ;; strcat_buf input_dir ;;
         strcat_buf (" -M -o $@ $< >$(OBJDIR)/$(<F:%%.asm=%.d)" ++ nl)
       else
         strcat_buf "$(CXX) $(CXXFLAGS) -MF $(OBJDIR)/" ;;
         strcat_buf basename ;;
         strcat_buf (".d -o $@ -c $<" ++ nl)) ;;
    ret PBuf
  else if prj_is_kind "cxxtestgen" then
    let target_name := path_swapextension name ".h" ".cpp" in
    strcpy_buf (target_name ++ ": " ++ name ++ nl
                ++ (if verbose then "" else tab ++ "@echo $(notdir $<)" ++ nl)
                ++ tab ++ (if verbose then "" else "@") ++ cxxtestpath pkg
                ++ " --part " ++ cxxtest_options pkg ++ " -o " ++ target_name
                ++ " " ++ name ++ nl) ;;
    ret PBuf
  else ret NULL.

Definition listRcTargets (name : string) : M cptr :=
  let prefix := if g_verbose ctx then "" else "@" in
  when (matches (path_getextension name) ".rc")
    (let base := path_getbasename name in
     io_print ("$(OBJDIR)/" ++ base ++ ".res: " ++ name ++ nl) ;;
     io_print (tab ++ "-" ++ prefix ++ "$(CMD_MKOBJDIR)" ++ nl) ;;
     when (negb (g_verbose ctx)) (io_print (tab ++ "@echo $(notdir $<)" ++ nl)) ;;
     io_print (tab ++ prefix ++ "windres $< -O coff -o $@" ++ nl) ;;
     io_print nl) ;;
  ret NULL.

Definition listLinkerDeps (name : string) : M cptr :=
  let i := prj_find_package name in
  if (0 <=? i)%Z then
    let kind := prj_get_kind_for i in
    if String.eqb kind "cxxtestgen" then ret NULL
    else t <- prj_get_target_for i ;; ret (PStr t)
  else ret NULL.

(** *** gnu_cpp (lines 34-290), phase by phase *)

Definition prefix : string := if g_verbose ctx then "" else "@".

(** Lines 40-45: name and open the package makefile. *)
Definition gnu_cpp_open : M unit :=
  (if gnu_pkgOwnsPath prj pkg then
     strcpy_buf (path_join (pkgpath pkg) "Makefile" "")
   else
     strcpy_buf (path_join (pkgpath pkg) (pkgname pkg) DOT_MAKE)) ;;
  fun s => io_openfile (g_buffer s) s.

(** Lines 47-63: the header comment. *)
Definition gnu_cpp_header : M unit :=
  io_print ("# " ++ (if prj_is_lang "c++" then "C++" else "C") ++ " ") ;;
  (if prj_is_kind "exe" then io_print "Console Executable"
   else if prj_is_kind "winexe" then io_print "Windowed Executable"
   else if prj_is_kind "dll" then io_print "Shared Library"
   else if prj_is_kind "cxxtestgen" then io_print "CxxTest Generator"
   else if prj_is_kind "lib" then io_print "Static Library"
   else if prj_is_kind "run" then io_print "Run Target"
   else ret tt) ;;
  io_print (" Makefile autogenerated by premake" ++ nl) ;;
  io_print ("# Don't edit this file! Instead edit `premake.lua` then rerun `make`" ++ nl ++ nl).

(** Lines 65-69: the default configuration. *)
Definition gnu_cpp_default_config : M unit :=
  prj_select_config 0 ;;
  io_print ("ifndef CONFIG" ++ nl) ;;
  name <- prj_get cfgname ;;
  io_print ("  CONFIG=" ++ name ++ nl) ;;
  io_print ("endif" ++ nl ++ nl).

(** Lines 83-89: preprocessor flags. *)
Definition emit_cppflags : M unit :=
  io_print "  CPPFLAGS :=" ;;
  when (negb (matches (g_cc ctx) "dmc")) (io_print " -MD") ;;
  l <- prj_get defines ;;
  print_list l (" -D " ++ dq) dq "" None ;;
  l <- prj_get incpaths ;;
  print_list l (" -I " ++ dq) dq "" None ;;
  io_print nl.

(** Lines 97-102: the optimization tokens. *)
Definition emit_optimize : M unit :=
  size <- prj_has_flag "optimize-size" ;;
  when size (io_print " -Os") ;;
  speed <- prj_has_flag "optimize-speed" ;;
  when speed (io_print " -O3") ;;
  opt <- prj_has_flag "optimize" ;;
  size <- prj_has_flag "optimize-size" ;;
  speed <- prj_has_flag "optimize-speed" ;;
  when (opt && negb size && negb speed) (io_print " -O2").

(** Lines 91-110: C flags. *)
Definition emit_cflags : M unit :=
  io_print "  CFLAGS += $(CPPFLAGS)" ;;
  when (prj_is_kind "dll" && negb (os_is "windows")) (io_print " -fPIC") ;;
  nosym <- prj_has_flag "no-symbols" ;;
  when (negb nosym) (io_print " -g") ;;
  emit_optimize ;;
  b <- prj_has_flag "extra-warnings" ;;
  when b (io_print " -Wall") ;;
  b <- prj_has_flag "fatal-warnings" ;;
  when b (io_print " -Werror") ;;
  b <- prj_has_flag "no-frame-pointer" ;;
  when b (io_print " -fomit-frame-pointer") ;;
  l <- prj_get buildoptions ;;
  print_list l " " "" "" None ;;
  io_print nl.

(** Lines 112-118: C++ flags. *)
Definition emit_cxxflags : M unit :=
  io_print "  CXXFLAGS := $(CFLAGS)" ;;
  b <- prj_has_flag "no-exceptions" ;;
  when b (io_print " --no-exceptions") ;;
  b <- prj_has_flag "no-rtti" ;;
  when b (io_print " --no-rtti") ;;
  io_print nl.

(** Lines 120-141: linker flags. *)
Definition emit_ldflags : M unit :=
  io_print "  LDFLAGS += -L$(BINDIR) -L$(LIBDIR)" ;;
  when (prj_is_kind "dll" &&
        (match g_cc ctx with None => true | Some _ => false end || matches (g_cc ctx) "gcc"))
    (io_print " -shared") ;;
  b <- prj_has_flag "no-symbols" ;;
  when b (io_print " -s") ;;
  b <- prj_has_flag "dylib" ;;
  when (os_is "macosx" && b) (io_print " -dynamiclib -flat_namespace") ;;
  when (negb (os_is "macosx")) (io_print " -Xlinker --start-group") ;;
  l <- prj_get linkoptions ;;
  print_list l " " "" "" None ;;
  l <- prj_get libpaths ;;
  print_list l (" -L" ++ dq) dq "" None ;;
  print_list (links pkg) " " "" "" (Some filterLinks) ;;
  when (negb (os_is "macosx")) (io_print " -Xlinker --end-group") ;;
  io_print nl.

(** Lines 143-146: the libraries this target depends on. *)
Definition emit_lddeps : M unit :=
  io_print "  LDDEPS :=" ;;
  print_list (links pkg) " " "" "" (Some listLinkerDeps) ;;
  io_print nl.

(** Lines 148-154: the target name. *)
Definition emit_target : M unit :=
  t <- prj_get target ;;
  (if prj_is_kind "cxxtestgen" then io_print ("  TARGET := $(OBJECTS)" ++ nl)
   else io_print ("  TARGET := " ++ path_getname t ++ nl)) ;;
  when (os_is "macosx" && prj_is_kind "winexe")
    (io_print ("  MACAPP := " ++ path_getname t ++ ".app/Contents" ++ nl)).

(** Lines 156-166: the build command. *)
Definition emit_bldcmd : M unit :=
  io_print "  BLDCMD = " ;;
  (if prj_is_kind "lib" then
     io_print "ar -cr $(OUTDIR)/$(TARGET) $(OBJECTS); ranlib $(OUTDIR)/$(TARGET)"
   else if prj_is_kind "cxxtestgen" then
     io_print "true"
   else if prj_is_kind "run" then
     io_print "for a in $(LDDEPS); do echo Running $$a; $$a; done"
   else
     io_print ("$(" ++ (if prj_is_lang "c" then "CC" else "CXX")
               ++ ") -o $(OUTDIR)/$(TARGET) $(OBJECTS) $(LDFLAGS) $(RESOURCES)")) ;;
  io_print nl.

(** Lines 76-81: the guard and the directory variables. *)
Definition emit_guard : M unit :=
  name <- prj_get cfgname ;;
  io_print ("ifeq ($(CONFIG)," ++ name ++ ")" ++ nl).

Definition emit_dirs : M unit :=
  d <- prj_get bindir ;; io_print ("  BINDIR := " ++ d ++ nl) ;;
  d <- prj_get libdir ;; io_print ("  LIBDIR := " ++ d ++ nl) ;;
  d <- prj_get objdir ;; io_print ("  OBJDIR := " ++ d ++ nl) ;;
  d <- prj_get outdir ;; io_print ("  OUTDIR := " ++ d ++ nl).

(** Lines 78-166: what stands between the guard and its [endif]. *)
Definition emit_config_body : M unit :=
  emit_dirs ;;
  emit_cppflags ;;
  emit_cflags ;;
  emit_cxxflags ;;
  emit_ldflags ;;
  emit_lddeps ;;
  emit_target ;;
  emit_bldcmd.

(** Lines 74-168: one pass of the loop body. *)
Definition emit_config_block (i : nat) : M unit :=
  prj_select_config i ;;
  emit_guard ;;
  emit_config_body ;;
  io_print ("endif" ++ nl ++ nl).

(** [for (i = ...; i < prj_get_numconfigs(); ++i) body(i)], with [todo]
    bounding the iterations left. *)
Fixpoint for_configs (todo i : nat) (body : nat -> M unit) : M unit :=
  match todo with
  | O => ret tt
  | S todo' =>
      if (i <? prj_get_numconfigs)%nat then
        body i ;; for_configs todo' (S i) body
      else ret tt
  end.

(** Lines 71-169: the build configurations. *)
Definition gnu_cpp_configs : M unit :=
  for_configs prj_get_numconfigs 0 emit_config_block.

(** Lines 171-177: the object file list. *)
Definition gnu_cpp_objects : M unit :=
  io_print ("OBJECTS := " ++ bs ++ nl) ;;
  (if prj_is_kind "cxxtestgen" then
     print_list (files pkg) tab (" " ++ bs ++ nl) "" (Some listCxxTestSources)
   else
     print_list (files pkg) (tab ++ "$(OBJDIR)/") (" " ++ bs ++ nl) "" (Some listCppSources)) ;;
  io_print nl.

(** Lines 179-185: the resource file list, windows only. *)
Definition gnu_cpp_resources : M unit :=
  when (os_is "windows")
    (io_print ("RESOURCES := " ++ bs ++ nl) ;;
     print_list (files pkg) (tab ++ "$(OBJDIR)/") (" " ++ bs ++ nl) "" (Some listRcSources) ;;
     io_print nl).

Definition mkdir_posix (var dir : string) : string :=
  "  CMD_MK" ++ var ++ " := mkdir -p $(" ++ dir ++ ")" ++ nl.

Definition mkdir_cmd (var dir : string) : string :=
  "  CMD_MK" ++ var ++ " := $(CMD) /c if not exist $(subst /," ++ bs ++ bs ++ ",$(" ++ dir
  ++ ")) mkdir $(subst /," ++ bs ++ bs ++ ",$(" ++ dir ++ "))" ++ nl.

(** Lines 187-202: directory helpers and phony declaration. *)
Definition gnu_cpp_tooling : M unit :=
  io_print ("CMD := $(subst " ++ bs ++ "," ++ bs ++ bs ++ ",$(ComSpec)$(COMSPEC))" ++ nl) ;;
  io_print ("ifeq (,$(CMD))" ++ nl) ;;
  io_print (mkdir_posix "BINDIR" "BINDIR") ;;
  io_print (mkdir_posix "LIBDIR" "LIBDIR") ;;
  io_print (mkdir_posix "OUTDIR" "OUTDIR") ;;
  io_print (mkdir_posix "OBJDIR" "OBJDIR") ;;
  io_print ("else" ++ nl) ;;
  io_print (mkdir_cmd "BINDIR" "BINDIR") ;;
  io_print (mkdir_cmd "LIBDIR" "LIBDIR") ;;
  io_print (mkdir_cmd "OUTDIR" "OUTDIR") ;;
  io_print (mkdir_cmd "OBJDIR" "OBJDIR") ;;
  io_print ("endif" ++ nl) ;;
  io_print nl ;;
  io_print (".PHONY: clean" ++ nl) ;;
  io_print nl.

(** Lines 204-257: the main build target. *)
Definition gnu_cpp_main_target : M unit :=
  (if os_is "macosx" && prj_is_kind "winexe" then
     io_print ("all: $(OUTDIR)/$(MACAPP)/PkgInfo $(OUTDIR)/$(MACAPP)/Info.plist $(OUTDIR)/$(MACAPP)/MacOS/$(TARGET)" ++ nl ++ nl) ;;
     io_print "$(OUTDIR)/$(MACAPP)/MacOS/$(TARGET)"
   else if prj_is_kind "cxxtestgen" then
     io_print "all"
   else
     io_print "$(OUTDIR)/$(TARGET)") ;;
  io_print (": $(OBJECTS) $(LDDEPS) $(RESOURCES)" ++ nl) ;;
  (if prj_is_kind "cxxtestgen" then
     io_print (tab ++ "@" ++ cxxtestpath pkg ++ " --root") ;;
     io_print (" " ++ cxxtest_rootoptions pkg ++ " ") ;;
     io_print (" -o " ++ cxxtest_rootfile pkg ++ nl ++ nl)
   else if prj_is_kind "run" then
     io_print (tab ++ prefix ++ "$(BLDCMD)" ++ nl ++ nl)
   else
     when (negb (g_verbose ctx)) (io_print (tab ++ "@echo Linking " ++ pkgname pkg ++ nl)) ;;
     io_print (tab ++ "-" ++ prefix ++ "$(CMD_MKBINDIR)" ++ nl) ;;
     io_print (tab ++ "-" ++ prefix ++ "$(CMD_MKLIBDIR)" ++ nl) ;;
     io_print (tab ++ "-" ++ prefix ++ "$(CMD_MKOUTDIR)" ++ nl) ;;
     when (os_is "macosx" && prj_is_kind "winexe")
       (io_print (tab ++ "-" ++ prefix
                  ++ "if [ ! -d $(OUTDIR)/$(MACAPP)/MacOS ]; then mkdir -p $(OUTDIR)/$(MACAPP)/MacOS; fi" ++ nl)) ;;
     io_print (tab ++ prefix ++ "$(BLDCMD)" ++ nl ++ nl)) ;;
  when (os_is "macosx" && prj_is_kind "winexe")
    (io_print ("$(OUTDIR)/$(MACAPP)/PkgInfo:" ++ nl ++ nl) ;;
     io_print ("$(OUTDIR)/$(MACAPP)/Info.plist:" ++ nl ++ nl)).

(** Lines 259-272: the clean target. *)
Definition gnu_cpp_clean : M unit :=
  io_print ("clean:" ++ nl) ;;
  io_print (tab ++ "@echo Cleaning " ++ pkgname pkg ++ nl) ;;
  (if os_is "macosx" && prj_is_kind "winexe" then
     io_print (tab ++ "-" ++ prefix ++ "rm -rf $(OUTDIR)/$(TARGET).app $(OBJDIR)" ++ nl)
   else if prj_is_kind "cxxtestgen" then
     io_print (tab ++ "-" ++ prefix ++ "rm -f $(OBJECTS)" ++ nl)
   else
     io_print (tab ++ "-" ++ prefix ++ "rm -rf $(OUTDIR)/$(TARGET) $(OBJDIR)" ++ nl)) ;;
  io_print nl.

(** Line 279: one static rule per compiled source file. *)
Definition gnu_cpp_rules : M unit :=
  print_list (files pkg) "" nl "" (Some listCppTargets).

(** Lines 281-282: the resource rules, windows only. *)
Definition gnu_cpp_rc_rules : M unit :=
  when (os_is "windows") (print_list (files pkg) "" "" "" (Some listRcTargets)).

(** Lines 284-286: the generated dependency lists. *)
Definition gnu_cpp_include : M unit :=
  when (negb (prj_is_kind "cxxtestgen")) (io_print ("-include $(OBJECTS:%.o=%.d)" ++ nl ++ nl)).

(** Lines 171-288: everything after the configuration blocks. *)
Definition gnu_cpp_rest : M unit :=
  gnu_cpp_objects ;;
  gnu_cpp_resources ;;
  gnu_cpp_tooling ;;
  gnu_cpp_main_target ;;
  gnu_cpp_clean ;;
  gnu_cpp_rules ;;
  gnu_cpp_rc_rules ;;
  gnu_cpp_include ;;
  io_closefile.

Definition gnu_cpp : M Z :=
  gnu_cpp_open ;;
  gnu_cpp_header ;;
  gnu_cpp_default_config ;;
  gnu_cpp_configs ;;
  gnu_cpp_rest ;;
  ret 1%Z.

End GnuCpp.

(** * Reasoning about emitters *)

(** ** Running a sequence *)

Lemma wr_bind {A B} (m : M A) (f : A -> M B) (s : State) :
  wr (bind m f s) = (wr (m s) ++ wr (f (val (m s)) (st (m s))))%list.
Proof. reflexivity. Qed.

Lemma st_bind {A B} (m : M A) (f : A -> M B) (s : State) :
  st (bind m f s) = st (f (val (m s)) (st (m s))).
Proof. reflexivity. Qed.

Lemma val_bind {A B} (m : M A) (f : A -> M B) (s : State) :
  val (bind m f s) = val (f (val (m s)) (st (m s))).
Proof. reflexivity. Qed.

(** The entries of a list a callback keeps, in order. *)
Fixpoint filter_map {A B} (g : A -> option B) (l : list A) : list B :=
  match l with
  | [] => []
  | x :: rest =>
      match g x with
      | Some y => y :: filter_map g rest
      | None => filter_map g rest
      end
  end.

Lemma filter_map_length_filter {A B} (g : A -> option B) (p : A -> bool) (l : list A) :
  (forall x, p x = true <-> g x <> None) ->
  length (filter_map g l) = length (filter p l).
Proof.
  intros Hp. induction l as [|x l IH]; simpl; [reflexivity|].
  destruct (g x) eqn:E.
  - assert (p x = true) as -> by (apply Hp; congruence). simpl. now rewrite IH.
  - destruct (p x) eqn:Ep; [|exact IH].
    apply Hp in Ep. congruence.
Qed.

Lemma filter_map_In {A B} (g : A -> option B) (l : list A) (x : A) (y : B) :
  In x l -> g x = Some y -> In y (filter_map g l).
Proof.
  induction l as [|a l IH]; simpl; [tauto|].
  intros [->|Hin] Hg.
  - rewrite Hg. now left.
  - destruct (g a); [right|]; auto.
Qed.

(** ** Determinism up to the scratch buffer

    An emitter is [det] when its output, its result and the cursor it
    leaves depend on the incoming state through the cursor alone. *)

Definition det {A} (m : M A) : Prop :=
  forall s1 s2, cursor s1 = cursor s2 ->
    wr (m s1) = wr (m s2) /\ val (m s1) = val (m s2)
    /\ cursor (st (m s1)) = cursor (st (m s2)).

(** The same for a callback, whose result is read through the pointer
    it returns. *)
Definition det_callback (f : string -> M cptr) : Prop :=
  forall x s1 s2, cursor s1 = cursor s2 ->
    wr (f x s1) = wr (f x s2)
    /\ deref (st (f x s1)) (val (f x s1)) = deref (st (f x s2)) (val (f x s2))
    /\ cursor (st (f x s1)) = cursor (st (f x s2)).

Lemma det_ret {A} (a : A) : det (ret a).
Proof. intros s1 s2 H. simpl. auto. Qed.

Lemma det_bind {A B} (m : M A) (f : A -> M B) :
  det m -> (forall a, det (f a)) -> det (bind m f).
Proof.
  intros Hm Hf s1 s2 H.
  destruct (Hm s1 s2 H) as (Hw & Hv & Hc).
  rewrite !wr_bind, !st_bind, !val_bind, Hv.
  destruct (Hf (val (m s2)) (st (m s1)) (st (m s2)) Hc) as (Hw' & Hv' & Hc').
  rewrite Hw, Hw'. auto.
Qed.

Lemma det_if {A} (b : bool) (m1 m2 : M A) : det m1 -> det m2 -> det (if b then m1 else m2).
Proof. now destruct b. Qed.

Lemma det_when (b : bool) (m : M unit) : det m -> det (when b m).
Proof. intros H. destruct b; [exact H | apply det_ret]. Qed.

Lemma det_io_print (x : string) : det (io_print x).
Proof. intros s1 s2 H. simpl. auto. Qed.

Lemma det_strcpy_buf (x : string) : det (strcpy_buf x).
Proof. intros s1 s2 H. simpl. auto. Qed.

Lemma det_io_closefile : det io_closefile.
Proof. intros s1 s2 H. simpl. auto. Qed.

Lemma det_prj_select_config (i : nat) : det (prj_select_config i).
Proof. intros s1 s2 H. simpl. auto. Qed.

Lemma det_prj_get (pkg : Package) {A} (f : Config -> A) : det (prj_get pkg f).
Proof. intros s1 s2 H. unfold prj_get, my_cfg. simpl. rewrite H. auto. Qed.

Lemma det_prj_has_flag (pkg : Package) (flag : string) : det (prj_has_flag pkg flag).
Proof. apply det_prj_get. Qed.

(** ** Unfolding print_list by one entry *)

Lemma wr_print_list_cons f pre post inf i x l s :
  wr (print_list_from i (x :: l) pre post inf f s) =
  (wr (call f x s) ++
   match deref (st (call f x s)) (val (call f x s)) with
   | Some v => entry i pre post inf v
               :: wr (print_list_from (S i) l pre post inf f (st (call f x s)))
   | None => wr (print_list_from i l pre post inf f (st (call f x s)))
   end)%list.
Proof.
  simpl print_list_from. rewrite wr_bind.
  destruct (deref _ _); reflexivity.
Qed.

Lemma st_print_list_cons f pre post inf i x l s :
  st (print_list_from i (x :: l) pre post inf f s) =
   match deref (st (call f x s)) (val (call f x s)) with
   | Some v => st (print_list_from (S i) l pre post inf f (st (call f x s)))
   | None => st (print_list_from i l pre post inf f (st (call f x s)))
   end.
Proof.
  simpl print_list_from. rewrite st_bind.
  destruct (deref _ _); reflexivity.
Qed.

Lemma entry_no_infix i pre post v : entry i pre post "" v = pre ++ v ++ post.
Proof. unfold entry. now destruct (0 <? i)%nat. Qed.

Lemma det_call f : (forall g, f = Some g -> det_callback g) -> det_callback (call f).
Proof.
  intros Hf. destruct f as [g|]; [now apply Hf|].
  intros y t1 t2 Ht. simpl. auto.
Qed.

Lemma det_print_list_from (f : option (string -> M cptr)) (pre post inf : string) :
  (forall g, f = Some g -> det_callback g) ->
  forall l i, det (print_list_from i l pre post inf f).
Proof.
  intros Hf l. induction l as [|x l IH]; intros i s1 s2 H.
  - simpl. auto.
  - rewrite !wr_print_list_cons, !st_print_list_cons.
    destruct (det_call Hf x s1 s2 H) as (Hw & Hd & Hc).
    rewrite Hw, Hd.
    destruct (deref (st (call f x s2)) (val (call f x s2))) as [v|].
    + destruct (IH (S i) _ _ Hc) as (Hw' & Hv' & Hc'). rewrite Hw'.
      split; [reflexivity|split; [|exact Hc']].
      now destruct (val (print_list_from _ _ _ _ _ _ s1)),
                   (val (print_list_from _ _ _ _ _ _ s2)).
    + destruct (IH i _ _ Hc) as (Hw' & Hv' & Hc'). rewrite Hw'.
      split; [reflexivity|split; [|exact Hc']].
      now destruct (val (print_list_from _ _ _ _ _ _ s1)),
                   (val (print_list_from _ _ _ _ _ _ s2)).
Qed.

(** ** Callbacks that only compute a string

    [returned r] is the C string a callback handed back, read at the
    moment it returns; [None] stands for NULL. *)

Definition returned (r : Res cptr) : option string := deref (st r) (val r).

(** The string a callback returns when the cursor is [c]. *)
Definition resolve (f : string -> M cptr) (c : nat) (x : string) : option string :=
  returned (f x (mkState c "" None)).

(** A callback is [quiet] when it prints nothing, leaves the cursor alone
    and returns a string that depends on the cursor only. *)
Definition quiet (f : string -> M cptr) : Prop :=
  forall x s,
    wr (f x s) = [] /\ returned (f x s) = resolve f (cursor s) x
    /\ cursor (st (f x s)) = cursor s.

Lemma quiet_det f : quiet f -> det_callback f.
Proof.
  intros Hq x s1 s2 H.
  destruct (Hq x s1) as (W1 & R1 & C1), (Hq x s2) as (W2 & R2 & C2).
  unfold returned in *. rewrite W1, W2, R1, R2, C1, C2, H. auto.
Qed.

Lemma print_list_quiet f pre post :
  quiet f ->
  forall l i s,
    wr (print_list_from i l pre post "" (Some f) s)
    = map (fun v => pre ++ v ++ post) (filter_map (resolve f (cursor s)) l)
    /\ cursor (st (print_list_from i l pre post "" (Some f) s)) = cursor s.
Proof.
  intros Hq l. induction l as [|x l IH]; intros i s.
  - simpl. auto.
  - rewrite wr_print_list_cons, st_print_list_cons. simpl call.
    destruct (Hq x s) as (W & R & C). unfold returned in R.
    rewrite W, R. simpl filter_map.
    destruct (resolve f (cursor s) x) as [v|].
    + destruct (IH (S i) (st (f x s))) as (Hw & Hc).
      rewrite Hw, Hc, C, entry_no_infix. auto.
    + destruct (IH i (st (f x s))) as (Hw & Hc).
      rewrite Hw, Hc, C. auto.
Qed.

Lemma print_list_plain pre post :
  forall l i s,
    wr (print_list_from i l pre post "" None s) = map (fun v => pre ++ v ++ post) l
    /\ st (print_list_from i l pre post "" None s) = s.
Proof.
  induction l as [|x l IH]; intros i s.
  - simpl. auto.
  - rewrite wr_print_list_cons, st_print_list_cons. simpl.
    destruct (IH (S i) s) as (Hw & Hs).
    rewrite Hw, Hs, entry_no_infix. auto.
Qed.

Section Callbacks.

Context {U : Externals}.
Variable ctx : PlatformContext.
Variable prj : Project.
Variable pkg : Package.

Ltac quiet_tac :=
  intros x s; unfold returned, resolve, returned, when;
  repeat match goal with
         | |- context [if ?b then _ else _] => destruct b
         end;
  simpl; auto.

Lemma quiet_filterLinks : quiet (filterLinks prj).
Proof. unfold filterLinks. quiet_tac. Qed.

Lemma quiet_listLinkerDeps : quiet (listLinkerDeps prj).
Proof. unfold listLinkerDeps. quiet_tac. Qed.

Lemma quiet_listCppSources : quiet listCppSources.
Proof. unfold listCppSources. quiet_tac. Qed.

Lemma quiet_listCxxTestSources : quiet listCxxTestSources.
Proof. unfold listCxxTestSources. quiet_tac. Qed.

Lemma quiet_listRcSources : quiet listRcSources.
Proof. unfold listRcSources. quiet_tac. Qed.

Lemma quiet_listCppTargets : quiet (listCppTargets ctx pkg).
Proof. unfold listCppTargets. quiet_tac. Qed.

End Callbacks.

Section Phases.

Context {U : Externals}.
Variable ctx : PlatformContext.
Variable prj : Project.
Variable pkg : Package.

(** *** Resource rules *)

Definition is_rc (name : string) : bool := matches (path_getextension name) ".rc".

(** The rule [listRcTargets] prints for one resource file. *)
Definition rc_rule (name : string) : list string :=
  [ "$(OBJDIR)/" ++ path_getbasename name ++ ".res: " ++ name ++ nl;
    tab ++ "-" ++ prefix ctx ++ "$(CMD_MKOBJDIR)" ++ nl ]
  ++ (if g_verbose ctx then [] else [tab ++ "@echo $(notdir $<)" ++ nl])
  ++ [ tab ++ prefix ctx ++ "windres $< -O coff -o $@" ++ nl; nl ].

Lemma run_listRcTargets name s :
  wr (listRcTargets ctx name s) = (if is_rc name then rc_rule name else [])
  /\ st (listRcTargets ctx name s) = s /\ val (listRcTargets ctx name s) = NULL.
Proof.
  unfold listRcTargets, is_rc, rc_rule, prefix, when.
  destruct (matches _ _), (g_verbose ctx); simpl; auto.
Qed.

Lemma det_listRcTargets : det_callback (listRcTargets ctx).
Proof.
  intros x s1 s2 H.
  destruct (run_listRcTargets x s1) as (W1 & S1 & V1).
  destruct (run_listRcTargets x s2) as (W2 & S2 & V2).
  rewrite W1, W2, S1, S2, V1, V2. simpl. auto.
Qed.

Lemma print_list_listRcTargets pre post inf :
  forall l i s,
    wr (print_list_from i l pre post inf (Some (listRcTargets ctx)) s)
    = flat_map rc_rule (filter is_rc l)
    /\ st (print_list_from i l pre post inf (Some (listRcTargets ctx)) s) = s.
Proof.
  induction l as [|x l IH]; intros i s.
  - simpl. auto.
  - rewrite wr_print_list_cons, st_print_list_cons. simpl call.
    destruct (run_listRcTargets x s) as (W & S & V).
    rewrite W, S, V. simpl deref. destruct (IH i s) as (Hw & Hs).
    rewrite Hw, Hs. simpl filter.
    destruct (is_rc x); simpl; auto.
Qed.

(** *** Every phase is deterministic up to the scratch buffer *)

Lemma det_strcat_buf_open :
  det (fun s => io_openfile (g_buffer s) s).
Proof. intros s1 s2 H. simpl. auto. Qed.

Ltac det_tac :=
  repeat first
    [ apply det_ret | apply det_io_print | apply det_strcpy_buf
    | apply det_io_closefile | apply det_prj_select_config
    | apply det_prj_has_flag | apply det_prj_get | apply det_strcat_buf_open
    | apply det_when | apply det_if
    | apply det_bind; [|intro]
    | apply det_print_list_from; intros ? Hnone; discriminate Hnone
    | apply det_print_list_from; intros ? [= <-];
      first [ apply det_listRcTargets
            | apply quiet_det;
              first [ apply quiet_filterLinks | apply quiet_listLinkerDeps
                    | apply quiet_listCppSources | apply quiet_listCxxTestSources
                    | apply quiet_listRcSources | apply quiet_listCppTargets ] ] ].

Lemma det_gnu_cpp_open : det (gnu_cpp_open prj pkg).
Proof. unfold gnu_cpp_open. det_tac. Qed.

Lemma det_gnu_cpp_header : det (gnu_cpp_header pkg).
Proof. unfold gnu_cpp_header. det_tac. Qed.

Lemma det_gnu_cpp_default_config : det (gnu_cpp_default_config pkg).
Proof. unfold gnu_cpp_default_config. det_tac. Qed.

Lemma det_emit_config_body : det (emit_config_body ctx prj pkg).
Proof.
  unfold emit_config_body, emit_dirs, emit_cppflags, emit_cflags, emit_optimize,
    emit_cxxflags, emit_ldflags, emit_lddeps, emit_target, emit_bldcmd, print_list.
  det_tac.
Qed.





(** *** From any two states

    Until it selects configuration 0 the emitter reads nothing of the
    state it inherits, so its output does not depend on that state. *)







End Phases.

(** ** What an emitter may print *)

Definition writes (P : string -> Prop) {A} (m : M A) : Prop :=
  forall s, Forall P (wr (m s)).

Lemma writes_ret P {A} (a : A) : writes P (ret a).
Proof. intros s. constructor. Qed.

Lemma writes_bind P {A B} (m : M A) (f : A -> M B) :
  writes P m -> (forall a, writes P (f a)) -> writes P (bind m f).
Proof.
  intros Hm Hf s. rewrite wr_bind. apply Forall_app. split; [apply Hm|apply Hf].
Qed.

Lemma writes_if P {A} (b : bool) (m1 m2 : M A) :
  writes P m1 -> writes P m2 -> writes P (if b then m1 else m2).
Proof. now destruct b. Qed.

Lemma writes_when P (b : bool) (m : M unit) : writes P m -> writes P (when b m).
Proof. intros H. destruct b; [exact H|apply writes_ret]. Qed.

Lemma writes_io_print (P : string -> Prop) x : P x -> writes P (io_print x).
Proof. intros H s. simpl. auto. Qed.

Lemma writes_prj_get P pkg {A} (f : Config -> A) : writes P (prj_get pkg f).
Proof. intros s. constructor. Qed.

Lemma writes_prj_select_config P i : writes P (prj_select_config i).
Proof. intros s. constructor. Qed.

Lemma writes_print_list_plain (P : string -> Prop) pre post l i :
  (forall v, P (pre ++ v ++ post)) ->
  writes P (print_list_from i l pre post "" None).
Proof.
  intros H s. destruct (print_list_plain pre post l i s) as (-> & _).
  apply Forall_forall. intros c Hc. apply in_map_iff in Hc as (v & <- & _). apply H.
Qed.

Lemma writes_print_list_quiet (P : string -> Prop) f pre post l i :
  quiet f -> (forall v, P (pre ++ v ++ post)) ->
  writes P (print_list_from i l pre post "" (Some f)).
Proof.
  intros Hq H s. destruct (print_list_quiet pre post Hq l i s) as (-> & _).
  apply Forall_forall. intros c Hc. apply in_map_iff in Hc as (v & <- & _). apply H.
Qed.

Lemma map_nth_seq {A} (l : list A) (d : A) :
  map (fun i => nth i l d) (seq 0 (length l)) = l.
Proof.
  induction l as [|a l IH]; [reflexivity|].
  simpl. f_equal. rewrite <- seq_shift, map_map. exact IH.
Qed.

Section Blocks.

Context {U : Externals}.
Variable ctx : PlatformContext.
Variable prj : Project.
Variable pkg : Package.

(** A log entry that opens an [ifeq] conditional. *)
Definition is_config_guard (chunk : string) : bool := String.prefix "ifeq" chunk.

(** The guard of the block of configuration [c]. *)
Definition config_guard (c : Config) : string :=
  "ifeq ($(CONFIG)," ++ cfgname c ++ ")" ++ nl.

(** What the loop body prints between guard and [endif] once
    configuration [i] is selected. *)
Definition config_body (i : nat) : list string :=
  wr (emit_config_body ctx prj pkg (mkState i "" None)).

Definition config_block (i : nat) : list string :=
  config_guard (nth i (configs pkg) no_config)
  :: (config_body i ++ [("endif" ++ nl ++ nl)%string])%list.

Lemma wr_emit_config_block i s :
  wr (emit_config_block ctx prj pkg i s) = config_block i.
Proof.
  unfold emit_config_block, config_block, config_body.
  rewrite !wr_bind.
  cbn [wr st val prj_select_config emit_guard io_print prj_get bind app my_cfg cursor].
  f_equal. f_equal.
  now apply det_emit_config_body.
Qed.

Lemma wr_for_configs todo :
  forall i s, i + todo = length (configs pkg) ->
    wr (for_configs pkg todo i (emit_config_block ctx prj pkg) s)
    = flat_map config_block (seq i todo).
Proof.
  induction todo as [|todo IH]; intros i s H; [reflexivity|].
  cbn [for_configs]. unfold prj_get_numconfigs.
  replace (i <? length (configs pkg))%nat with true
    by (symmetry; apply Nat.ltb_lt; lia).
  rewrite wr_bind, wr_emit_config_block, IH by lia. reflexivity.
Qed.

Lemma wr_gnu_cpp_configs s :
  wr (gnu_cpp_configs ctx prj pkg s)
  = flat_map config_block (seq 0 (length (configs pkg))).
Proof. apply wr_for_configs. reflexivity. Qed.

Ltac writes_tac :=
  repeat first
    [ apply writes_ret | apply writes_prj_get | apply writes_prj_select_config
    | apply writes_io_print; reflexivity
    | apply writes_when | apply writes_if
    | apply writes_bind; [|intro]
    | apply writes_print_list_plain; intro; reflexivity
    | apply writes_print_list_quiet;
      [ first [apply quiet_filterLinks | apply quiet_listLinkerDeps] | intro; reflexivity ] ].

Lemma config_body_no_guard :
  writes (fun c => is_config_guard c = false) (emit_config_body ctx prj pkg).
Proof.
  unfold emit_config_body, emit_dirs, emit_cppflags, emit_cflags, emit_optimize,
    emit_cxxflags, emit_ldflags, emit_lddeps, emit_target, emit_bldcmd, print_list,
    prj_has_flag.
  writes_tac.
Qed.

Lemma filter_guarded g body e :
  is_config_guard g = true ->
  Forall (fun c => is_config_guard c = false) body ->
  is_config_guard e = false ->
  filter is_config_guard (g :: body ++ [e]) = [g].
Proof.
  intros Hg Hb He. simpl. rewrite Hg. f_equal.
  induction Hb as [|c l Hc _ IH]; simpl; [now rewrite He|].
  now rewrite Hc.
Qed.

Lemma filter_config_block i :
  filter is_config_guard (config_block i)
  = [config_guard (nth i (configs pkg) no_config)].
Proof.
  apply filter_guarded; [reflexivity| |reflexivity].
  apply config_body_no_guard.
Qed.

Lemma filter_config_blocks l :
  filter is_config_guard (flat_map config_block l)
  = map (fun i => config_guard (nth i (configs pkg) no_config)) l.
Proof.
  induction l as [|i l IH]; [reflexivity|].
  cbn [flat_map]. rewrite filter_app, filter_config_block, IH. reflexivity.
Qed.

Lemma guards_of_gnu_cpp_configs s :
  filter is_config_guard (wr (gnu_cpp_configs ctx prj pkg s))
  = map config_guard (configs pkg).
Proof.
  rewrite wr_gnu_cpp_configs, filter_config_blocks.
  rewrite <- (map_map (fun i => nth i (configs pkg) no_config) config_guard).
  now rewrite map_nth_seq.
Qed.

End Blocks.

(** ** Running the primitive actions *)

Lemma wr_ret {A} (a : A) s : wr (ret a s) = [].
Proof. reflexivity. Qed.

Lemma st_ret {A} (a : A) s : st (ret a s) = s.
Proof. reflexivity. Qed.

Lemma wr_io_print x s : wr (io_print x s) = [x].
Proof. reflexivity. Qed.

Lemma st_io_print x s : st (io_print x s) = s.
Proof. reflexivity. Qed.

Lemma wr_prj_get pkg {A} (f : Config -> A) s : wr (prj_get pkg f s) = [].
Proof. reflexivity. Qed.

Lemma st_prj_get pkg {A} (f : Config -> A) s : st (prj_get pkg f s) = s.
Proof. reflexivity. Qed.

Lemma val_prj_get pkg {A} (f : Config -> A) s : val (prj_get pkg f s) = f (my_cfg pkg s).
Proof. reflexivity. Qed.

Lemma wr_when_print b x s : wr (when b (io_print x) s) = if b then [x] else [].
Proof. now destruct b. Qed.

Lemma st_when_print b x s : st (when b (io_print x) s) = s.
Proof. now destruct b. Qed.

Create Rewrite HintDb run.
#[local] Hint Rewrite @wr_bind @st_bind @val_bind @wr_ret @st_ret wr_io_print st_io_print
  @wr_prj_get @st_prj_get @val_prj_get wr_when_print st_when_print : run.

(** * Properties of the emitted makefile *)

Section Claims.

Context {U : Externals}.
Variable ctx : PlatformContext.
Variable prj : Project.
Variable pkg : Package.

(** ** Optimization tokens (lines 97-102) *)

Definition has_flag (c : Config) (flag : string) : bool :=
  existsb (fun f => String.eqb f flag) (flags c).

Lemma wr_emit_optimize s :
  wr (emit_optimize pkg s)
  = ((if has_flag (my_cfg pkg s) "optimize-size" then [" -Os"] else [])
     ++ (if has_flag (my_cfg pkg s) "optimize-speed" then [" -O3"] else [])
     ++ (if has_flag (my_cfg pkg s) "optimize"
            && negb (has_flag (my_cfg pkg s) "optimize-size")
            && negb (has_flag (my_cfg pkg s) "optimize-speed")
         then [" -O2"] else []))%list.
Proof.
  unfold emit_optimize, prj_has_flag, has_flag.
  autorewrite with run. reflexivity.
Qed.

(** C1, as the code has it: the size token is printed exactly when
    optimize-size is set and the speed token exactly when optimize-speed is
    set, each on its own; the default token is printed exactly when
    optimize is set and neither of the other two is, and is then the only
    optimization token.  At most one token is printed unless optimize-size
    and optimize-speed are both set. *)
Theorem optimize_tokens_precedence (s : State) :
  (In " -Os" (wr (emit_optimize pkg s))
   <-> has_flag (my_cfg pkg s) "optimize-size" = true)
  /\ (In " -O3" (wr (emit_optimize pkg s))
      <-> has_flag (my_cfg pkg s) "optimize-speed" = true)
  /\ (In " -O2" (wr (emit_optimize pkg s))
      <-> has_flag (my_cfg pkg s) "optimize" = true
          /\ has_flag (my_cfg pkg s) "optimize-size" = false
          /\ has_flag (my_cfg pkg s) "optimize-speed" = false)
  /\ (In " -O2" (wr (emit_optimize pkg s)) -> wr (emit_optimize pkg s) = [" -O2"])
  /\ (has_flag (my_cfg pkg s) "optimize-size"
      && has_flag (my_cfg pkg s) "optimize-speed" = false ->
      length (wr (emit_optimize pkg s)) <= 1).
Proof.
  rewrite wr_emit_optimize.
  destruct (has_flag (my_cfg pkg s) "optimize-size"),
           (has_flag (my_cfg pkg s) "optimize-speed"),
           (has_flag (my_cfg pkg s) "optimize"); simpl;
    repeat split; intros; try discriminate; try tauto; try lia;
    repeat match goal with
           | H : _ \/ _ |- _ => destruct H
           | H : _ /\ _ |- _ => destruct H
           end; try discriminate; try tauto.
Qed.

(** ** The build command (lines 156-166) *)

Definition recognized_kind (k : string) : bool :=
  existsb (String.eqb k) ["exe"; "winexe"; "dll"; "lib"; "cxxtestgen"; "run"].

(** The command of the last branch: the C or C++ link driver. *)
Definition link_command : string :=
  "$(" ++ (if String.eqb (language pkg) "c" then "CC" else "CXX")
  ++ ") -o $(OUTDIR)/$(TARGET) $(OBJECTS) $(LDFLAGS) $(RESOURCES)".

Lemma wr_emit_bldcmd s :
  wr (emit_bldcmd pkg s)
  = [ "  BLDCMD = ";
      if String.eqb (kind pkg) "lib" then
        "ar -cr $(OUTDIR)/$(TARGET) $(OBJECTS); ranlib $(OUTDIR)/$(TARGET)"
      else if String.eqb (kind pkg) "cxxtestgen" then "true"
      else if String.eqb (kind pkg) "run" then
        "for a in $(LDDEPS); do echo Running $$a; $$a; done"
      else link_command;
      nl ].
Proof.
  unfold emit_bldcmd, prj_is_kind, prj_is_lang, link_command, matches.
  rewrite !wr_bind.
  destruct (kind pkg =? "lib"), (kind pkg =? "cxxtestgen"), (kind pkg =? "run");
    reflexivity.
Qed.

(** C8: the build command follows the package kind: archive then index
    for a static library, a no-op for a test generator, a loop over the
    link dependencies for a run target, and the link driver picked by the
    language for executables and shared libraries. *)
Theorem bldcmd_by_kind (s : State) :
  (kind pkg = "lib" ->
   wr (emit_bldcmd pkg s)
   = ["  BLDCMD = ";
      "ar -cr $(OUTDIR)/$(TARGET) $(OBJECTS); ranlib $(OUTDIR)/$(TARGET)"; nl])
  /\ (kind pkg = "cxxtestgen" ->
      wr (emit_bldcmd pkg s) = ["  BLDCMD = "; "true"; nl])
  /\ (kind pkg = "run" ->
      wr (emit_bldcmd pkg s)
      = ["  BLDCMD = "; "for a in $(LDDEPS); do echo Running $$a; $$a; done"; nl])
  /\ (kind pkg = "exe" \/ kind pkg = "winexe" \/ kind pkg = "dll" ->
      wr (emit_bldcmd pkg s)
      = ["  BLDCMD = ";
         "$(" ++ (if String.eqb (language pkg) "c" then "CC" else "CXX")
         ++ ") -o $(OUTDIR)/$(TARGET) $(OBJECTS) $(LDFLAGS) $(RESOURCES)"; nl]).
Proof.
  rewrite wr_emit_bldcmd. unfold link_command.
  repeat split; intros H; try (destruct H as [H|[H|H]]); rewrite H; reflexivity.
Qed.

(** C2, as the code has it: a kind outside the six recognized ones falls
    into the last branch and gets the link driver command. *)
Theorem bldcmd_unrecognized_kind (s : State) :
  recognized_kind (kind pkg) = false ->
  wr (emit_bldcmd pkg s) = ["  BLDCMD = "; link_command; nl].
Proof.
  unfold recognized_kind. simpl existsb. intros H.
  repeat (apply orb_false_elim in H; destruct H as [? H]).
  rewrite wr_emit_bldcmd.
  repeat match goal with E : (_ =? _) = false |- _ => rewrite E; clear E end.
  reflexivity.
Qed.

(** ** Link references (lines 299-323 and 503-516) *)

(** The target path sibling [i] reports under the configuration selected
    in [s]. *)
Definition sibling_target (s : State) (i : Z) : string :=
  target (nth (cursor s) (configs (prj_get_package prj i)) no_config).

Lemma returned_filterLinks name s :
  returned (filterLinks prj name s)
  = let i := prj_find_package prj name in
    if (0 <=? i)%Z then
      if String.eqb (prj_get_kind_for prj i) "cxxtestgen" then None
      else if String.eqb (prj_get_language_for prj i) "c++"
              || String.eqb (prj_get_language_for prj i) "c"
           then Some (sibling_target s i)
           else None
    else Some ("-l" ++ name).
Proof.
  unfold filterLinks, returned, sibling_target, matches. cbv zeta.
  destruct (0 <=? _)%Z; [|reflexivity].
  destruct (_ =? "cxxtestgen"); [reflexivity|].
  destruct (_ || _); reflexivity.
Qed.

Lemma returned_listLinkerDeps name s :
  returned (listLinkerDeps prj name s)
  = let i := prj_find_package prj name in
    if (0 <=? i)%Z then
      if String.eqb (prj_get_kind_for prj i) "cxxtestgen" then None
      else Some (sibling_target s i)
    else None.
Proof.
  unfold listLinkerDeps, returned, sibling_target. cbv zeta.
  destruct (0 <=? _)%Z; [|reflexivity].
  destruct (_ =? "cxxtestgen"); reflexivity.
Qed.

Lemma append_empty (v : string) : v ++ "" = v.
Proof. induction v as [|a v IH]; simpl; [reflexivity|now rewrite IH]. Qed.

Lemma filter_map_ext {A B} (g h : A -> option B) (l : list A) :
  (forall x, g x = h x) -> filter_map g l = filter_map h l.
Proof.
  intros E. induction l as [|x l IH]; simpl; [reflexivity|].
  rewrite E, IH. reflexivity.
Qed.

(** The dependency line: one entry per reference [listLinkerDeps] keeps. *)
Lemma wr_emit_lddeps s :
  wr (emit_lddeps prj pkg s)
  = "  LDDEPS :="
    :: (map (fun v => (" " ++ v)%string)
          (filter_map (fun name => returned (listLinkerDeps prj name s)) (links pkg))
        ++ [nl])%list.
Proof.
  unfold emit_lddeps, print_list. autorewrite with run.
  destruct (print_list_quiet " " "" (quiet_listLinkerDeps prj) (links pkg) 0 s) as (-> & _).
  cbn [app]. f_equal. f_equal.
  rewrite (filter_map_ext (resolve (listLinkerDeps prj) (cursor s))
             (fun name => returned (listLinkerDeps prj name s)))
    by (intros x; symmetry; apply (quiet_listLinkerDeps prj x s)).
  apply map_ext. intros v. now rewrite append_empty.
Qed.

(** C3: a reference to a C or C++ sibling that is no test generator
    resolves to the sibling's target path, as link token and as link
    dependency, and the path is on the dependency line; a reference to a
    test-generator sibling resolves to nothing in both; a reference to no
    sibling resolves to the external-library token and to no dependency. *)
Theorem link_reference_resolution (name : string) (i : Z) (s : State) :
  prj_find_package prj name = i ->
  ((0 <= i)%Z ->
   prj_get_kind_for prj i <> "cxxtestgen" ->
   prj_get_language_for prj i = "c++" \/ prj_get_language_for prj i = "c" ->
   returned (filterLinks prj name s) = Some (sibling_target s i)
   /\ returned (listLinkerDeps prj name s) = Some (sibling_target s i)
   /\ (In name (links pkg) ->
       In (" " ++ sibling_target s i) (wr (emit_lddeps prj pkg s))))
  /\ ((0 <= i)%Z ->
      prj_get_kind_for prj i = "cxxtestgen" ->
      returned (filterLinks prj name s) = None
      /\ returned (listLinkerDeps prj name s) = None)
  /\ ((i < 0)%Z ->
      returned (filterLinks prj name s) = Some ("-l" ++ name)
      /\ returned (listLinkerDeps prj name s) = None).
Proof.
  intros Ei. rewrite returned_filterLinks, returned_listLinkerDeps, Ei. cbv zeta.
  split; [intros Hi Hk Hl|split; [intros Hi Hk|intros Hi]].
  - apply Z.leb_le in Hi. apply String.eqb_neq in Hk. rewrite Hi, Hk.
    split; [destruct Hl as [-> | ->]; reflexivity|].
    split; [reflexivity|].
    intros Hin. rewrite wr_emit_lddeps. right. apply in_or_app. left.
    apply in_map. apply filter_map_In with (x := name); [exact Hin|].
    rewrite returned_listLinkerDeps, Ei. cbv zeta. now rewrite Hi, Hk.
  - apply Z.leb_le in Hi. rewrite Hi, Hk. split; reflexivity.
  - apply Z.leb_gt in Hi. rewrite Hi. split; reflexivity.
Qed.

(** C10: for a sibling that is no test generator the dependency list gets
    the target path whatever the sibling's language, the link tokens get it
    for C and C++ only; a sibling of another language is a dependency
    without a link token. *)
Theorem link_dependency_ignores_language (name : string) (i : Z) (s : State) :
  prj_find_package prj name = i ->
  (0 <= i)%Z ->
  prj_get_kind_for prj i <> "cxxtestgen" ->
  returned (listLinkerDeps prj name s) = Some (sibling_target s i)
  /\ returned (filterLinks prj name s)
     = (if String.eqb (prj_get_language_for prj i) "c++"
           || String.eqb (prj_get_language_for prj i) "c"
        then Some (sibling_target s i) else None)
  /\ (prj_get_language_for prj i <> "c++" ->
      prj_get_language_for prj i <> "c" ->
      returned (filterLinks prj name s) = None).
Proof.
  intros Ei Hi Hk. rewrite returned_filterLinks, returned_listLinkerDeps, Ei. cbv zeta.
  apply Z.leb_le in Hi. apply String.eqb_neq in Hk. rewrite Hi, Hk.
  repeat split. intros H1 H2.
  apply String.eqb_neq in H1, H2. now rewrite H1, H2.
Qed.

(** ** Configuration blocks (lines 65-169) *)

(** C4: the loop prints one block per declared configuration, in
    declaration order; each block opens with the guard comparing CONFIG
    with that configuration's name, closes with [endif], and has no other
    guard inside. *)
Theorem one_guarded_block_per_config (s : State) :
  wr (gnu_cpp_configs ctx prj pkg s)
  = flat_map (config_block ctx prj pkg) (seq 0 (length (configs pkg)))
  /\ (forall i,
        config_block ctx prj pkg i
        = config_guard (nth i (configs pkg) no_config)
          :: (config_body ctx prj pkg i ++ [("endif" ++ nl ++ nl)%string])%list
        /\ Forall (fun c => is_config_guard c = false) (config_body ctx prj pkg i))
  /\ filter is_config_guard (wr (gnu_cpp_configs ctx prj pkg s))
     = map config_guard (configs pkg)
  /\ length (filter is_config_guard (wr (gnu_cpp_configs ctx prj pkg s)))
     = length (configs pkg).
Proof.
  pose proof (guards_of_gnu_cpp_configs ctx prj pkg s) as Hf.
  split; [exact (wr_gnu_cpp_configs ctx prj pkg s)|].
  split; [intros i; split; [reflexivity|exact (config_body_no_guard ctx prj pkg _)]|].
  split; [exact Hf|]. rewrite Hf. apply length_map.
Qed.

Lemma header_no_guard :
  writes (fun c => is_config_guard c = false) (gnu_cpp_header pkg).
Proof.
  unfold gnu_cpp_header.
  repeat first
    [ apply writes_ret | apply writes_if | apply writes_bind; [|intro]
    | apply writes_io_print; reflexivity ].
Qed.

Lemma wr_gnu_cpp_open s : wr (gnu_cpp_open prj pkg s) = [].
Proof. unfold gnu_cpp_open. now destruct (gnu_pkgOwnsPath prj pkg). Qed.

Lemma wr_gnu_cpp_default_config s :
  wr (gnu_cpp_default_config pkg s)
  = [ "ifndef CONFIG" ++ nl;
      "  CONFIG=" ++ cfgname (nth 0 (configs pkg) no_config) ++ nl;
      "endif" ++ nl ++ nl ]
  /\ cursor (st (gnu_cpp_default_config pkg s)) = 0.
Proof. split; reflexivity. Qed.

Lemma wr_gnu_cpp s :
  exists s1 s2 s3 s4,
    wr (gnu_cpp ctx prj pkg s)
    = (wr (gnu_cpp_header pkg s1) ++ wr (gnu_cpp_default_config pkg s2)
       ++ wr (gnu_cpp_configs ctx prj pkg s3) ++ wr (gnu_cpp_rest ctx pkg s4))%list.
Proof.
  unfold gnu_cpp. do 4 eexists.
  rewrite !wr_bind, wr_gnu_cpp_open, wr_ret, app_nil_r. cbn [app]. reflexivity.
Qed.

(** C9: with at least one configuration declared, the emitter selects
    configuration 0 and prints, after the header and before every guarded
    block, the [ifndef] default that sets CONFIG to the first declared
    configuration's name. *)
Theorem default_config_is_first (c0 : Config) (cs : list Config) (s : State) :
  configs pkg = c0 :: cs ->
  (forall s', cursor (st (gnu_cpp_default_config pkg s')) = 0)
  /\ exists header rest,
      wr (gnu_cpp ctx prj pkg s)
      = (header
         ++ [ "ifndef CONFIG" ++ nl; "  CONFIG=" ++ cfgname c0 ++ nl; "endif" ++ nl ++ nl ]%string
         ++ wr (gnu_cpp_configs ctx prj pkg s) ++ rest)%list
      /\ Forall (fun c => is_config_guard c = false) header
      /\ filter is_config_guard (wr (gnu_cpp_configs ctx prj pkg s))
         = map config_guard (c0 :: cs).
Proof.
  intros Hc. split; [intros s'; apply wr_gnu_cpp_default_config|].
  destruct (wr_gnu_cpp s) as (s1 & s2 & s3 & s4 & E).
  exists (wr (gnu_cpp_header pkg s1)), (wr (gnu_cpp_rest ctx pkg s4)).
  split; [|split].
  - rewrite E. destruct (wr_gnu_cpp_default_config s2) as (-> & _).
    rewrite Hc. cbn [nth]. rewrite !wr_gnu_cpp_configs. reflexivity.
  - apply header_no_guard.
  - rewrite <- Hc. apply guards_of_gnu_cpp_configs.
Qed.

(** ** Object and resource lists (lines 171-185, 279-282) *)

(** The entries of a printed list: what stands between its heading and
    its closing line. *)
Definition list_entries (chunks : list string) : list string :=
  removelast (tl chunks).

Lemma list_entries_framed h l e : list_entries (h :: l ++ [e]) = l.
Proof. unfold list_entries. cbn [tl]. apply removelast_last. Qed.

Lemma resolve_listCppSources c :
  forall l, filter_map (resolve listCppSources c) l
            = map (fun f => path_getbasename f ++ ".o") (filter is_cpp l).
Proof.
  induction l as [|x l IH]; [reflexivity|].
  cbn [filter_map filter]. unfold resolve at 1, listCppSources at 1, returned.
  destruct (is_cpp x); cbn; now rewrite IH.
Qed.

Lemma resolve_listRcSources c :
  forall l, filter_map (resolve listRcSources c) l
            = map (fun f => path_getbasename f ++ ".res") (filter is_rc l).
Proof.
  induction l as [|x l IH]; [reflexivity|].
  cbn [filter_map filter]. unfold resolve at 1, listRcSources at 1, returned, is_rc.
  destruct (matches _ _); cbn; now rewrite IH.
Qed.

Lemma wr_gnu_cpp_objects s :
  kind pkg <> "cxxtestgen" ->
  wr (gnu_cpp_objects pkg s)
  = ("OBJECTS := " ++ bs ++ nl)
    :: (map (fun f => (tab ++ "$(OBJDIR)/" ++ (path_getbasename f ++ ".o") ++ " " ++ bs ++ nl)%string)
          (filter is_cpp (files pkg)) ++ [nl])%list.
Proof.
  intros Hk. unfold gnu_cpp_objects, prj_is_kind, matches, print_list.
  apply String.eqb_neq in Hk. rewrite Hk. autorewrite with run.
  destruct (print_list_quiet (tab ++ "$(OBJDIR)/") (" " ++ bs ++ nl)
              quiet_listCppSources (files pkg) 0 s) as (-> & _).
  rewrite resolve_listCppSources, map_map. reflexivity.
Qed.

(** C7: unless the package is a test generator, the object list has one
    entry, the base name with [.o], for every source file whose extension
    is in the table of compilable extensions, in order, and no other
    entry. *)
Theorem object_list_counts_compilable (s : State) :
  kind pkg <> "cxxtestgen" ->
  wr (gnu_cpp_objects pkg s)
  = ("OBJECTS := " ++ bs ++ nl)
    :: (map (fun f => (tab ++ "$(OBJDIR)/" ++ (path_getbasename f ++ ".o") ++ " " ++ bs ++ nl)%string)
          (filter is_cpp (files pkg)) ++ [nl])%list
  /\ length (list_entries (wr (gnu_cpp_objects pkg s)))
     = length (filter is_cpp (files pkg)).
Proof.
  intros Hk. pose proof (wr_gnu_cpp_objects s Hk) as E.
  split; [exact E|].
  rewrite E, list_entries_framed. apply length_map.
Qed.

(** C6: on windows the resource list has one entry, the base name with
    [.res], per [.rc] source and the rules one [windres] rule per [.rc]
    source; on any other platform neither list nor rules are printed. *)
Theorem resources_only_on_windows (s : State) :
  wr (gnu_cpp_resources ctx pkg s)
  = (if os_is ctx "windows" then
       ("RESOURCES := " ++ bs ++ nl)
       :: (map (fun f => (tab ++ "$(OBJDIR)/" ++ (path_getbasename f ++ ".res") ++ " " ++ bs ++ nl)%string)
             (filter is_rc (files pkg)) ++ [nl])%list
     else [])
  /\ wr (gnu_cpp_rc_rules ctx pkg s)
     = (if os_is ctx "windows" then flat_map (rc_rule ctx) (filter is_rc (files pkg))
        else [])
  /\ forall f,
       length (filter (String.eqb (tab ++ prefix ctx ++ "windres $< -O coff -o $@" ++ nl))
                 (rc_rule ctx f)) = 1.
Proof.
  split; [|split].
  - unfold gnu_cpp_resources, print_list, when.
    destruct (os_is ctx "windows"); [|reflexivity].
    autorewrite with run.
    destruct (print_list_quiet (tab ++ "$(OBJDIR)/") (" " ++ bs ++ nl)
                quiet_listRcSources (files pkg) 0 s) as (-> & _).
    rewrite resolve_listRcSources, map_map. reflexivity.
  - unfold gnu_cpp_rc_rules, print_list, when.
    destruct (os_is ctx "windows"); [|reflexivity].
    apply print_list_listRcTargets.
  - intros f. unfold rc_rule, prefix. destruct (g_verbose ctx); reflexivity.
Qed.

End Claims.

(** * Further properties of the emitter *)

Lemma append_assoc (a b c : string) : (a ++ b) ++ c = a ++ b ++ c.
Proof. induction a as [|x a IH]; simpl; [reflexivity|now rewrite IH]. Qed.

(** ** Actions that only append to the scratch buffer *)

Definition appends {A} (m : M A) : Prop :=
  forall s, exists t, g_buffer (st (m s)) = g_buffer s ++ t.

Lemma appends_ret {A} (a : A) : appends (ret a).
Proof. intros s. exists "". simpl. now rewrite append_empty. Qed.

Lemma appends_strcat_buf x : appends (strcat_buf x).
Proof. intros s. now exists x. Qed.

Lemma appends_bind {A B} (m : M A) (f : A -> M B) :
  appends m -> (forall a, appends (f a)) -> appends (bind m f).
Proof.
  intros Hm Hf s. destruct (Hm s) as (t & Et).
  destruct (Hf (val (m s)) (st (m s))) as (t' & Et').
  exists (t ++ t'). rewrite st_bind, Et', Et. apply append_assoc.
Qed.

Lemma appends_if {A} (b : bool) (m1 m2 : M A) :
  appends m1 -> appends m2 -> appends (if b then m1 else m2).
Proof. now destruct b. Qed.

Lemma appends_when b m : appends m -> appends (when b m).
Proof. intros H. destruct b; [exact H|apply appends_ret]. Qed.

Ltac appends_tac :=
  repeat first
    [ apply appends_ret | apply appends_strcat_buf
    | apply appends_when | apply appends_if
    | apply appends_bind; [|intro] ].

Section Rules.

Context {U : Externals}.
Variable ctx : PlatformContext.
Variable prj : Project.
Variable pkg : Package.

(** ** Compile rules ([listCppTargets], lines 377-469) *)

(** The first line of the rule of a compilable source. *)
Definition rule_target (name : string) : string :=
  "$(OBJDIR)/" ++ path_getbasename name ++ ".o: " ++ name ++ nl.

(** What every such rule does before it compiles: make the object
    directory, announce the file unless verbose, and open the line of the
    compile command. *)
Definition rule_preamble : string :=
  tab ++ "-" ++ prefix ctx ++ "$(CMD_MKOBJDIR)" ++ nl
  ++ (if g_verbose ctx then "" else tab ++ "@echo $(notdir $<)" ++ nl)
  ++ tab ++ prefix ctx.

(** The compile command chosen by toolchain and extension
    (lines 396-442). *)
Definition compile_command (name : string) : M unit :=
  let ext := path_getextension name in
  let basename := path_getbasename name in
  if matches (g_cc ctx) "dmc" then
    if matches ext ".c" then
      strcat_buf ("dmc $(CFLAGS) -o $@ -c $<" ++ nl)
    else if negb (matches ext ".s") then
      strcat_buf ("dmc -cpp -Ae -Ar -mn $(CXXFLAGS) -o $@ -c $<" ++ nl)
    else ret tt
  else
    if matches ext ".s" then
      strcat_buf ("$(CC) -x assembler-with-cpp $(CPPFLAGS) -o $@ -c $<" ++ nl)
    else if matches ext ".c" then
      strcat_buf ("$(CC) $(CFLAGS) -MF $(OBJDIR)/$(<F:%%.c=%%.d) -o $@ -c $<" ++ nl)
    else if matches ext ".asm" then
      let input_dir := path_translate (path_getdir name) None ++ "/" in
      let opts := if negb (os_is ctx "windows") then "-dDONT_USE_UNDERLINE=1 " else "" in
      strcat_buf "nasm " ;; strcat_buf opts ;;
      strcat_buf " -i" ;; strcat_buf input_dir ;;
      strcat_buf (" -f elf -o $@ $<" ++ nl) ;;
      strcat_buf tab ;;
      when (negb (g_verbose ctx)) (strcat_buf "@") ;;
      strcat_buf "nasm " ;; strcat_buf opts ;;
      strcat_buf " -i" ;; strcat_buf input_dir ;;
      strcat_buf (" -M -o $@ $< >$(OBJDIR)/$(<F:%%.asm=%.d)" ++ nl)
    else
      strcat_buf "$(CXX) $(CXXFLAGS) -MF $(OBJDIR)/" ;;
      strcat_buf basename ;;
      strcat_buf (".d -o $@ -c $<" ++ nl).

Lemma appends_compile_command name : appends (compile_command name).
Proof. unfold compile_command. cbv zeta. appends_tac. Qed.

(** The text [compile_command] adds to an empty buffer. *)
Definition command_text (name : string) : string :=
  g_buffer (st (compile_command name (mkState 0 "" None))).

Lemma compile_command_appends_text name s :
  g_buffer (st (compile_command name s)) = g_buffer s ++ command_text name.
Proof.
  unfold command_text, compile_command, when. cbv zeta.
  repeat match goal with
         | |- context [if ?b then _ else _] => destruct b
         end; cbn [st bind ret strcat_buf g_buffer val];
    rewrite ?append_assoc, ?append_empty; reflexivity.
Qed.

Lemma returned_listCppTargets_compilable name s :
  is_cpp name = true ->
  returned (listCppTargets ctx pkg name s)
  = Some (rule_target name ++ rule_preamble ++ command_text name).
Proof.
  intros Hc. unfold returned, listCppTargets. cbv zeta. rewrite Hc.
  change (if matches (g_cc ctx) "dmc" then _ else _) with (compile_command name).
  rewrite !val_bind, !st_bind. cbn [val ret deref]. f_equal.
  rewrite st_ret, compile_command_appends_text.
  unfold rule_target, rule_preamble, prefix, when.
  destruct (g_verbose ctx); cbn [negb st bind ret strcat_buf strcpy_buf g_buffer val];
    rewrite ?append_assoc; reflexivity.
Qed.

Lemma returned_listCppTargets_other name s :
  is_cpp name = false -> kind pkg <> "cxxtestgen" ->
  returned (listCppTargets ctx pkg name s) = None.
Proof.
  intros Hc Hk. unfold returned, listCppTargets, prj_is_kind, matches. cbv zeta.
  apply String.eqb_neq in Hk. rewrite Hc, Hk. reflexivity.
Qed.

Lemma resolve_listCppTargets c :
  kind pkg <> "cxxtestgen" ->
  forall l, filter_map (resolve (listCppTargets ctx pkg) c) l
            = map (fun f => rule_target f ++ rule_preamble ++ command_text f)
                  (filter is_cpp l).
Proof.
  intros Hk. induction l as [|x l IH]; [reflexivity|].
  cbn [filter_map filter]. unfold resolve at 1.
  destruct (is_cpp x) eqn:Hc.
  - rewrite returned_listCppTargets_compilable by exact Hc. cbn [map]. now rewrite IH.
  - rewrite returned_listCppTargets_other by assumption. exact IH.
Qed.

(** X1: Unless the package is a test generator, the rules section has
    exactly one rule per compilable source, in the order of the object
    list and as many as the object list has entries; the rule of a source
    opens with the line naming its object file and the source. *)
Theorem one_rule_per_object (s s' : State) :
  kind pkg <> "cxxtestgen" ->
  Forall2 (fun f rule => exists recipe, rule = rule_target f ++ recipe)
          (filter is_cpp (files pkg)) (wr (gnu_cpp_rules ctx pkg s))
  /\ length (wr (gnu_cpp_rules ctx pkg s)) = length (filter is_cpp (files pkg))
  /\ length (wr (gnu_cpp_rules ctx pkg s))
     = length (list_entries (wr (gnu_cpp_objects pkg s'))).
Proof.
  intros Hk.
  assert (E : wr (gnu_cpp_rules ctx pkg s)
              = map (fun f => (rule_target f ++ rule_preamble ++ command_text f) ++ nl)
                    (filter is_cpp (files pkg))).
  { unfold gnu_cpp_rules, print_list.
    destruct (print_list_quiet "" nl (quiet_listCppTargets ctx pkg) (files pkg) 0 s)
      as (-> & _).
    rewrite resolve_listCppTargets, map_map by exact Hk. reflexivity. }
  split; [|split].
  - rewrite E. clear E.
    induction (filter is_cpp (files pkg)) as [|f l IH]; cbn [map]; constructor;
      [|exact IH].
    exists ((rule_preamble ++ command_text f) ++ nl). now rewrite append_assoc.
  - rewrite E. apply length_map.
  - rewrite E, length_map, (wr_gnu_cpp_objects pkg s' Hk), list_entries_framed, length_map.
    reflexivity.
Qed.

(** X2: With the Digital Mars compiler an assembly source still gets its
    rule, but the rule compiles nothing: after the preamble the command
    line stays empty. *)
Theorem dmc_assembly_rule_is_empty (name : string) (s : State) :
  g_cc ctx = Some "dmc" ->
  path_getextension name = Some ".s" ->
  is_cpp name = true ->
  command_text name = ""
  /\ returned (listCppTargets ctx pkg name s)
     = Some (rule_target name ++ rule_preamble).
Proof.
  intros Hcc He Hc.
  assert (E : command_text name = "").
  { unfold command_text, compile_command. cbv zeta. rewrite Hcc, He. reflexivity. }
  split; [exact E|].
  rewrite returned_listCppTargets_compilable by exact Hc.
  now rewrite E, append_empty.
Qed.

(** X3: With the Digital Mars compiler a C source is compiled as C and every
    other compilable source but [.s], netwide-assembler sources included,
    is handed to the compiler in C++ mode. *)
Theorem dmc_compile_commands (name : string) (e : string) (s : State) :
  g_cc ctx = Some "dmc" ->
  path_getextension name = Some e ->
  is_cpp name = true ->
  (e = ".c" ->
   returned (listCppTargets ctx pkg name s)
   = Some (rule_target name ++ rule_preamble ++ "dmc $(CFLAGS) -o $@ -c $<" ++ nl))
  /\ (e <> ".c" -> e <> ".s" ->
      returned (listCppTargets ctx pkg name s)
      = Some (rule_target name ++ rule_preamble
              ++ "dmc -cpp -Ae -Ar -mn $(CXXFLAGS) -o $@ -c $<" ++ nl)).
Proof.
  intros Hcc He Hc. rewrite returned_listCppTargets_compilable by exact Hc.
  unfold command_text, compile_command. cbv zeta.
  rewrite Hcc, He. unfold matches. split.
  - intros ->. reflexivity.
  - intros H1 H2. apply String.eqb_neq in H1, H2. rewrite H1, H2. reflexivity.
Qed.

Lemma command_text_gcc (name : string) (e : string) :
  matches (g_cc ctx) "dmc" = false ->
  path_getextension name = Some e ->
  (e = ".s" ->
   command_text name = "$(CC) -x assembler-with-cpp $(CPPFLAGS) -o $@ -c $<" ++ nl)
  /\ (e = ".c" ->
      command_text name
      = "$(CC) $(CFLAGS) -MF $(OBJDIR)/$(<F:%%.c=%%.d) -o $@ -c $<" ++ nl)
  /\ (e = ".asm" ->
      command_text name
      = "nasm " ++ (if os_is ctx "windows" then "" else "-dDONT_USE_UNDERLINE=1 ")
        ++ " -i" ++ (path_translate (path_getdir name) None ++ "/")
        ++ " -f elf -o $@ $<" ++ nl
        ++ tab ++ prefix ctx
        ++ "nasm " ++ (if os_is ctx "windows" then "" else "-dDONT_USE_UNDERLINE=1 ")
        ++ " -i" ++ (path_translate (path_getdir name) None ++ "/")
        ++ " -M -o $@ $< >$(OBJDIR)/$(<F:%%.asm=%.d)" ++ nl)
  /\ (e <> ".s" -> e <> ".c" -> e <> ".asm" ->
      command_text name
      = "$(CXX) $(CXXFLAGS) -MF $(OBJDIR)/" ++ path_getbasename name
        ++ ".d -o $@ -c $<" ++ nl).
Proof.
  intros Hcc He. unfold command_text, compile_command. cbv zeta.
  rewrite Hcc, He. unfold matches.
  split; [|split; [|split]].
  - intros ->. reflexivity.
  - intros ->. reflexivity.
  - intros ->. cbn [String.eqb Ascii.eqb Bool.eqb].
    unfold prefix, when.
    destruct (os_is ctx "windows"), (g_verbose ctx);
      cbn [negb st bind ret strcat_buf g_buffer val];
      rewrite ?append_assoc; reflexivity.
  - intros H1 H2 H3. apply String.eqb_neq in H1, H2, H3. rewrite H1, H2, H3.
    cbn [st bind ret strcat_buf g_buffer val]. rewrite ?append_assoc. reflexivity.
Qed.

(** X4: With any other toolchain: assembly goes through the C driver with the
    preprocessor flags only, C through the C driver, netwide assembler
    through two [nasm] runs (assemble, then list dependencies), and every
    other compilable source through the C++ driver with a dependency file
    named after the source's base name. *)
Theorem gcc_compile_commands (name : string) (e : string) (s : State) :
  matches (g_cc ctx) "dmc" = false ->
  path_getextension name = Some e ->
  is_cpp name = true ->
  (e = ".s" ->
   returned (listCppTargets ctx pkg name s)
   = Some (rule_target name ++ rule_preamble
           ++ "$(CC) -x assembler-with-cpp $(CPPFLAGS) -o $@ -c $<" ++ nl))
  /\ (e = ".c" ->
      returned (listCppTargets ctx pkg name s)
      = Some (rule_target name ++ rule_preamble
              ++ "$(CC) $(CFLAGS) -MF $(OBJDIR)/$(<F:%%.c=%%.d) -o $@ -c $<" ++ nl))
  /\ (e = ".asm" ->
      returned (listCppTargets ctx pkg name s)
      = Some (rule_target name ++ rule_preamble
              ++ "nasm " ++ (if os_is ctx "windows" then "" else "-dDONT_USE_UNDERLINE=1 ")
              ++ " -i" ++ (path_translate (path_getdir name) None ++ "/")
              ++ " -f elf -o $@ $<" ++ nl
              ++ tab ++ prefix ctx
              ++ "nasm " ++ (if os_is ctx "windows" then "" else "-dDONT_USE_UNDERLINE=1 ")
              ++ " -i" ++ (path_translate (path_getdir name) None ++ "/")
              ++ " -M -o $@ $< >$(OBJDIR)/$(<F:%%.asm=%.d)" ++ nl))
  /\ (e <> ".s" -> e <> ".c" -> e <> ".asm" ->
      returned (listCppTargets ctx pkg name s)
      = Some (rule_target name ++ rule_preamble
              ++ "$(CXX) $(CXXFLAGS) -MF $(OBJDIR)/" ++ path_getbasename name
              ++ ".d -o $@ -c $<" ++ nl)).
Proof.
  intros Hcc He Hc. rewrite returned_listCppTargets_compilable by exact Hc.
  destruct (command_text_gcc name Hcc He) as (H1 & H2 & H3 & H4).
  split; [|split; [|split]].
  - intros E. now rewrite (H1 E).
  - intros E. now rewrite (H2 E).
  - intros E. now rewrite (H3 E).
  - intros E1 E2 E3. now rewrite (H4 E1 E2 E3).
Qed.

(** ** Test generator packages (lines 173-174, 344-352, 446-464) *)

(** The generator rule of a source that is not compilable. *)
Definition generator_rule (name : string) : string :=
  let target_name := path_swapextension name ".h" ".cpp" in
  target_name ++ ": " ++ name ++ nl
  ++ (if g_verbose ctx then "" else tab ++ "@echo $(notdir $<)" ++ nl)
  ++ tab ++ prefix ctx ++ cxxtestpath pkg
  ++ " --part " ++ cxxtest_options pkg ++ " -o " ++ target_name ++ " " ++ name ++ nl.

(** X5: In a test generator package every source that is not compilable gets
    a generator rule, header or not, but only headers are listed among the
    objects: such a source that is no header has a rule building a file
    the object list does not name. *)
Theorem generator_rule_without_object (name : string) (s : State) :
  kind pkg = "cxxtestgen" ->
  is_cpp name = false ->
  returned (listCppTargets ctx pkg name s) = Some (generator_rule name)
  /\ (endsWith name ".h" = false -> returned (listCxxTestSources name s) = None).
Proof.
  intros Hk Hc. split.
  - unfold returned, listCppTargets, prj_is_kind, matches, generator_rule, prefix.
    cbv zeta. rewrite Hc, Hk. cbn [String.eqb Ascii.eqb Bool.eqb].
    cbn [val st bind ret strcpy_buf deref g_buffer].
    destruct (g_verbose ctx); rewrite ?append_assoc; reflexivity.
  - intros Hh. unfold returned, listCxxTestSources. rewrite Hh. reflexivity.
Qed.

Lemma resolve_listCxxTestSources c :
  forall l, filter_map (resolve listCxxTestSources c) l
            = map (fun f => path_swapextension f ".h" ".cpp")
                  (filter (fun f => endsWith f ".h") l).
Proof.
  induction l as [|x l IH]; [reflexivity|].
  cbn [filter_map filter]. unfold resolve at 1, listCxxTestSources at 1, returned.
  destruct (endsWith x ".h"); cbn; now rewrite IH.
Qed.

(** X6: The object list of a test generator package names the generated
    [.cpp] of every header, without the object directory, and nothing
    else; compilable sources of such a package are not listed. *)
Theorem generator_object_list (s : State) :
  kind pkg = "cxxtestgen" ->
  wr (gnu_cpp_objects pkg s)
  = ("OBJECTS := " ++ bs ++ nl)
    :: (map (fun f => (tab ++ path_swapextension f ".h" ".cpp" ++ " " ++ bs ++ nl)%string)
          (filter (fun f => endsWith f ".h") (files pkg)) ++ [nl])%list.
Proof.
  intros Hk. unfold gnu_cpp_objects, prj_is_kind, matches, print_list.
  rewrite Hk. cbn [String.eqb Ascii.eqb Bool.eqb]. autorewrite with run.
  destruct (print_list_quiet tab (" " ++ bs ++ nl)
              quiet_listCxxTestSources (files pkg) 0 s) as (-> & _).
  rewrite resolve_listCxxTestSources, map_map. reflexivity.
Qed.

End Rules.

(** ** Actions that leave the selected configuration alone *)

Definition keeps_cursor {A} (m : M A) : Prop :=
  forall s, cursor (st (m s)) = cursor s.

Lemma keeps_ret {A} (a : A) : keeps_cursor (ret a).
Proof. intros s. reflexivity. Qed.

Lemma keeps_bind {A B} (m : M A) (f : A -> M B) :
  keeps_cursor m -> (forall a, keeps_cursor (f a)) -> keeps_cursor (bind m f).
Proof. intros Hm Hf s. rewrite st_bind, Hf, Hm. reflexivity. Qed.

Lemma keeps_if {A} (b : bool) (m1 m2 : M A) :
  keeps_cursor m1 -> keeps_cursor m2 -> keeps_cursor (if b then m1 else m2).
Proof. now destruct b. Qed.

Lemma keeps_when b m : keeps_cursor m -> keeps_cursor (when b m).
Proof. intros H. destruct b; [exact H|apply keeps_ret]. Qed.

Lemma keeps_io_print x : keeps_cursor (io_print x).
Proof. intros s. reflexivity. Qed.

Lemma keeps_io_closefile : keeps_cursor io_closefile.
Proof. intros s. reflexivity. Qed.

Lemma keeps_prj_get pkg {A} (f : Config -> A) : keeps_cursor (prj_get pkg f).
Proof. intros s. reflexivity. Qed.

Lemma keeps_print_list_from f pre post inf :
  (forall x, keeps_cursor (call f x)) ->
  forall l i, keeps_cursor (print_list_from i l pre post inf f).
Proof.
  intros Hf l. induction l as [|x l IH]; intros i s; [reflexivity|].
  rewrite st_print_list_cons.
  destruct (deref _ _); rewrite IH; apply Hf.
Qed.

Lemma keeps_call_quiet f x : quiet f -> keeps_cursor (call (Some f) x).
Proof. intros Hq s. apply (Hq x s). Qed.

Lemma keeps_call_none x : keeps_cursor (call None x).
Proof. intros s. reflexivity. Qed.

Section Flags.

Context {U : Externals}.
Variable ctx : PlatformContext.
Variable prj : Project.
Variable pkg : Package.

Lemma keeps_call_listRcTargets x : keeps_cursor (call (Some (listRcTargets ctx)) x).
Proof. intros s. simpl call. now destruct (run_listRcTargets ctx x s) as (_ & -> & _). Qed.

Ltac keeps_tac :=
  repeat first
    [ apply keeps_ret | apply keeps_io_print | apply keeps_io_closefile
    | apply keeps_prj_get | apply keeps_when | apply keeps_if
    | apply keeps_bind; [|intro]
    | apply keeps_print_list_from; intro;
      first [ apply keeps_call_none | apply keeps_call_listRcTargets
            | apply keeps_call_quiet;
              first [ apply quiet_filterLinks | apply quiet_listLinkerDeps
                    | apply quiet_listCppSources | apply quiet_listCxxTestSources
                    | apply quiet_listRcSources | apply quiet_listCppTargets ] ] ].

Lemma keeps_emit_config_body : keeps_cursor (emit_config_body ctx prj pkg).
Proof.
  unfold emit_config_body, emit_dirs, emit_cppflags, emit_cflags, emit_optimize,
    emit_cxxflags, emit_ldflags, emit_lddeps, emit_target, emit_bldcmd, print_list,
    prj_has_flag.
  keeps_tac.
Qed.

Lemma keeps_gnu_cpp_objects : keeps_cursor (gnu_cpp_objects pkg).
Proof. unfold gnu_cpp_objects, print_list. keeps_tac. Qed.

Lemma keeps_gnu_cpp_resources : keeps_cursor (gnu_cpp_resources ctx pkg).
Proof. unfold gnu_cpp_resources, print_list. keeps_tac. Qed.

Lemma keeps_gnu_cpp_tooling : keeps_cursor gnu_cpp_tooling.
Proof. unfold gnu_cpp_tooling. keeps_tac. Qed.

Lemma keeps_gnu_cpp_main_target : keeps_cursor (gnu_cpp_main_target ctx pkg).
Proof. unfold gnu_cpp_main_target. keeps_tac. Qed.

Lemma keeps_gnu_cpp_clean : keeps_cursor (gnu_cpp_clean ctx pkg).
Proof. unfold gnu_cpp_clean. keeps_tac. Qed.

Lemma keeps_gnu_cpp_rules : keeps_cursor (gnu_cpp_rules ctx pkg).
Proof. unfold gnu_cpp_rules, print_list. keeps_tac. Qed.

Lemma keeps_gnu_cpp_rc_rules : keeps_cursor (gnu_cpp_rc_rules ctx pkg).
Proof. unfold gnu_cpp_rc_rules, print_list. keeps_tac. Qed.

Lemma keeps_gnu_cpp_include : keeps_cursor (gnu_cpp_include pkg).
Proof. unfold gnu_cpp_include. keeps_tac. Qed.

Lemma keeps_gnu_cpp_rest : keeps_cursor (gnu_cpp_rest ctx pkg).
Proof.
  unfold gnu_cpp_rest.
  apply keeps_bind; [apply keeps_gnu_cpp_objects|intros _].
  apply keeps_bind; [apply keeps_gnu_cpp_resources|intros _].
  apply keeps_bind; [apply keeps_gnu_cpp_tooling|intros _].
  apply keeps_bind; [apply keeps_gnu_cpp_main_target|intros _].
  apply keeps_bind; [apply keeps_gnu_cpp_clean|intros _].
  apply keeps_bind; [apply keeps_gnu_cpp_rules|intros _].
  apply keeps_bind; [apply keeps_gnu_cpp_rc_rules|intros _].
  apply keeps_bind; [apply keeps_gnu_cpp_include|intros _].
  apply keeps_io_closefile.
Qed.

Lemma cursor_emit_config_block i s :
  cursor (st (emit_config_block ctx prj pkg i s)) = i.
Proof.
  unfold emit_config_block, emit_guard. rewrite !st_bind.
  rewrite keeps_io_print, keeps_emit_config_body, keeps_io_print, keeps_prj_get.
  reflexivity.
Qed.

Lemma cursor_for_configs todo :
  forall i s, i + todo = length (configs pkg) ->
    cursor (st (for_configs pkg todo i (emit_config_block ctx prj pkg) s))
    = match todo with O => cursor s | S _ => pred (length (configs pkg)) end.
Proof.
  induction todo as [|todo IH]; intros i s H; [reflexivity|].
  cbn [for_configs]. unfold prj_get_numconfigs.
  replace (i <? length (configs pkg))%nat with true
    by (symmetry; apply Nat.ltb_lt; lia).
  rewrite st_bind, IH by lia.
  destruct todo; [rewrite cursor_emit_config_block; lia|reflexivity].
Qed.

(** X7: [gnu_cpp] restores nothing: it always reports success, closes the
    makefile, and leaves the last declared configuration selected. *)
Theorem gnu_cpp_leaves_last_config_selected (s : State) :
  val (gnu_cpp ctx prj pkg s) = 1%Z
  /\ io_name (st (gnu_cpp ctx prj pkg s)) = None
  /\ cursor (st (gnu_cpp ctx prj pkg s)) = pred (length (configs pkg)).
Proof.
  split; [reflexivity|]. split.
  - unfold gnu_cpp, gnu_cpp_rest. rewrite !st_bind. reflexivity.
  - unfold gnu_cpp. rewrite !st_bind, st_ret, keeps_gnu_cpp_rest.
    unfold gnu_cpp_configs, prj_get_numconfigs.
    rewrite cursor_for_configs by reflexivity.
    destruct (length (configs pkg)); [|reflexivity].
    apply wr_gnu_cpp_default_config.
Qed.

(** ** The flag lines of a configuration block (lines 83-141) *)

(** X8: The preprocessor line asks for dependency files unless the
    toolchain is the Digital Mars compiler, then has one quoted [-D] per
    define and one quoted [-I] per include path, in declaration order. *)
Theorem cppflags_line (s : State) :
  wr (emit_cppflags ctx pkg s)
  = "  CPPFLAGS :="
    :: ((if matches (g_cc ctx) "dmc" then [] else [" -MD"])
        ++ map (fun d => (" -D " ++ dq ++ d ++ dq)%string) (defines (my_cfg pkg s))
        ++ map (fun p => (" -I " ++ dq ++ p ++ dq)%string) (incpaths (my_cfg pkg s))
        ++ [nl])%list.
Proof.
  unfold emit_cppflags, print_list. autorewrite with run.
  destruct (print_list_plain (" -D " ++ dq) dq (defines (my_cfg pkg s)) 0 s) as (Hw & Hs).
  rewrite Hw, Hs. autorewrite with run.
  destruct (print_list_plain (" -I " ++ dq) dq (incpaths (my_cfg pkg s)) 0 s) as (Hw' & _).
  rewrite Hw'.
  destruct (matches (g_cc ctx) "dmc"); reflexivity.
Qed.

(** X9: The compile line keeps a fixed order: position-independent code for
    a shared library off windows, debug symbols unless no-symbols, the
    optimization tokens, the warning tokens, frame-pointer omission, and
    the build options, verbatim, last. *)
Theorem cflags_line (s : State) :
  wr (emit_cflags ctx pkg s)
  = "  CFLAGS += $(CPPFLAGS)"
    :: ((if prj_is_kind pkg "dll" && negb (os_is ctx "windows") then [" -fPIC"] else [])
        ++ (if has_flag (my_cfg pkg s) "no-symbols" then [] else [" -g"])
        ++ wr (emit_optimize pkg s)
        ++ (if has_flag (my_cfg pkg s) "extra-warnings" then [" -Wall"] else [])
        ++ (if has_flag (my_cfg pkg s) "fatal-warnings" then [" -Werror"] else [])
        ++ (if has_flag (my_cfg pkg s) "no-frame-pointer"
            then [" -fomit-frame-pointer"] else [])
        ++ map (fun o => (" " ++ o)%string) (buildoptions (my_cfg pkg s))
        ++ [nl])%list.
Proof.
  assert (Hs : forall t, st (emit_optimize pkg t) = t).
  { intros t. unfold emit_optimize, prj_has_flag. now autorewrite with run. }
  unfold emit_cflags, print_list, prj_has_flag. autorewrite with run.
  rewrite !Hs. autorewrite with run.
  destruct (print_list_plain " " "" (buildoptions (my_cfg pkg s)) 0 s) as (-> & _).
  fold (has_flag (my_cfg pkg s) "no-symbols") (has_flag (my_cfg pkg s) "extra-warnings")
       (has_flag (my_cfg pkg s) "fatal-warnings") (has_flag (my_cfg pkg s) "no-frame-pointer").
  rewrite (map_ext (fun v => " " ++ v ++ "") (fun o => " " ++ o))
    by (intros v; now rewrite append_empty).
  destruct (has_flag (my_cfg pkg s) "no-symbols"); cbn [negb app];
    rewrite <- ?app_assoc; reflexivity.
Qed.

(** X10: The link line: on every platform but macosx the link options, the
    library paths and the resolved link references stand between one
    [--start-group] and one [--end-group]; on macosx neither is printed.
    [-shared] needs a shared library and a toolchain that is unset or gcc. *)
Theorem ldflags_line (s : State) :
  wr (emit_ldflags ctx prj pkg s)
  = "  LDFLAGS += -L$(BINDIR) -L$(LIBDIR)"
    :: ((if prj_is_kind pkg "dll"
            && (match g_cc ctx with None => true | Some _ => false end
                || matches (g_cc ctx) "gcc")
         then [" -shared"] else [])
        ++ (if has_flag (my_cfg pkg s) "no-symbols" then [" -s"] else [])
        ++ (if os_is ctx "macosx" && has_flag (my_cfg pkg s) "dylib"
            then [" -dynamiclib -flat_namespace"] else [])
        ++ (if os_is ctx "macosx" then [] else [" -Xlinker --start-group"])
        ++ map (fun o => (" " ++ o)%string) (linkoptions (my_cfg pkg s))
        ++ map (fun p => (" -L" ++ dq ++ p ++ dq)%string) (libpaths (my_cfg pkg s))
        ++ map (fun t => (" " ++ t)%string)
             (filter_map (fun name => returned (filterLinks prj name s)) (links pkg))
        ++ (if os_is ctx "macosx" then [] else [" -Xlinker --end-group"])
        ++ [nl])%list.
Proof.
  unfold emit_ldflags, print_list, prj_has_flag. autorewrite with run.
  destruct (print_list_plain " " "" (linkoptions (my_cfg pkg s)) 0 s) as (Hw1 & Hs1).
  rewrite Hw1, Hs1. autorewrite with run.
  destruct (print_list_plain (" -L" ++ dq) dq (libpaths (my_cfg pkg s)) 0 s) as (Hw2 & Hs2).
  rewrite Hw2, Hs2.
  destruct (print_list_quiet " " "" (quiet_filterLinks prj) (links pkg) 0 s) as (Hw3 & _).
  rewrite Hw3.
  rewrite (filter_map_ext (resolve (filterLinks prj) (cursor s))
             (fun name => returned (filterLinks prj name s)))
    by (intros x; symmetry; apply (quiet_filterLinks prj x s)).
  rewrite !(map_ext (fun v => " " ++ v ++ "") (fun o => " " ++ o))
    by (intros v; now rewrite append_empty).
  fold (has_flag (my_cfg pkg s) "no-symbols") (has_flag (my_cfg pkg s) "dylib").
  destruct (os_is ctx "macosx"); cbn [negb app]; rewrite <- ?app_assoc; reflexivity.
Qed.

(** ** The header comment (lines 47-63) *)

(** X11: The header describes the six recognized kinds and no other: for an
    unrecognized kind it consists of the language tag and the two closing
    lines only. *)
Theorem header_describes_recognized_kinds (s : State) :
  length (wr (gnu_cpp_header pkg s)) = (if recognized_kind (kind pkg) then 4 else 3)
  /\ (recognized_kind (kind pkg) = false ->
      wr (gnu_cpp_header pkg s)
      = [ "# " ++ (if String.eqb (language pkg) "c++" then "C++" else "C") ++ " ";
          " Makefile autogenerated by premake" ++ nl;
          "# Don't edit this file! Instead edit `premake.lua` then rerun `make`"
          ++ nl ++ nl ]).
Proof.
  unfold gnu_cpp_header, recognized_kind, prj_is_kind, prj_is_lang, matches.
  cbn [existsb]. rewrite !wr_bind.
  destruct (kind pkg =? "exe"), (kind pkg =? "winexe"), (kind pkg =? "dll"),
           (kind pkg =? "lib"), (kind pkg =? "cxxtestgen"), (kind pkg =? "run");
    cbn [orb]; split; try reflexivity; intros; try discriminate; reflexivity.
Qed.

(** X12: Header and build command disagree on languages other than c and
    c++: the header tags everything that is not c++ as C, the build command
    uses the C driver for c alone, so a package of such a language that
    is linked (any kind but lib, cxxtestgen and run) is tagged C in the
    header and linked by the C++ driver. *)
Theorem other_language_tagged_c_linked_cxx (s s' : State) :
  language pkg <> "c++" ->
  language pkg <> "c" ->
  kind pkg <> "lib" -> kind pkg <> "cxxtestgen" -> kind pkg <> "run" ->
  hd "" (wr (gnu_cpp_header pkg s)) = "# C "
  /\ wr (emit_bldcmd pkg s')
     = [ "  BLDCMD = ";
         "$(CXX) -o $(OUTDIR)/$(TARGET) $(OBJECTS) $(LDFLAGS) $(RESOURCES)"; nl ].
Proof.
  intros H1 H2 K1 K2 K3. apply String.eqb_neq in H1, H2, K1, K2, K3.
  split.
  - unfold gnu_cpp_header, prj_is_lang, matches. rewrite wr_bind, H1. reflexivity.
  - rewrite wr_emit_bldcmd, K1, K2, K3. unfold link_command. rewrite H2. reflexivity.
Qed.

(** ** Target name and main target (lines 148-154 and 204-257) *)

Lemma wr_emit_target s :
  wr (emit_target ctx pkg s)
  = ((if prj_is_kind pkg "cxxtestgen" then ("  TARGET := $(OBJECTS)" ++ nl)%string
      else ("  TARGET := " ++ path_getname (target (my_cfg pkg s)) ++ nl)%string)
     :: (if os_is ctx "macosx" && prj_is_kind pkg "winexe"
         then [("  MACAPP := " ++ path_getname (target (my_cfg pkg s))
                ++ ".app/Contents" ++ nl)%string]
         else []))%list.
Proof.
  unfold emit_target, when. autorewrite with run.
  destruct (prj_is_kind pkg "cxxtestgen"), (os_is ctx "macosx" && prj_is_kind pkg "winexe");
    reflexivity.
Qed.

(** X13: On macosx a windowed executable is built as an application
    bundle: every configuration block defines [MACAPP] after [TARGET], and
    the main target is [all] with the bundle's PkgInfo, Info.plist and
    binary, makes the bundle's MacOS directory before linking and ends
    with the two empty stub rules.  In every other case no block defines
    [MACAPP], and the main target of a linked or archived package is the
    plain target file with the three directory commands and the build
    command. *)
Theorem macapp_bundle_target (s s' : State) :
  (os_is ctx "macosx" = true ->
   kind pkg = "winexe" ->
   wr (emit_target ctx pkg s)
   = [ "  TARGET := " ++ path_getname (target (my_cfg pkg s)) ++ nl;
       "  MACAPP := " ++ path_getname (target (my_cfg pkg s)) ++ ".app/Contents" ++ nl ]
   /\ wr (gnu_cpp_main_target ctx pkg s')
      = ([ "all: $(OUTDIR)/$(MACAPP)/PkgInfo $(OUTDIR)/$(MACAPP)/Info.plist $(OUTDIR)/$(MACAPP)/MacOS/$(TARGET)"
           ++ nl ++ nl;
           "$(OUTDIR)/$(MACAPP)/MacOS/$(TARGET)";
           ": $(OBJECTS) $(LDDEPS) $(RESOURCES)" ++ nl ]%string
         ++ (if g_verbose ctx then []
             else [(tab ++ "@echo Linking " ++ pkgname pkg ++ nl)%string])
         ++ [ tab ++ "-" ++ prefix ctx ++ "$(CMD_MKBINDIR)" ++ nl;
              tab ++ "-" ++ prefix ctx ++ "$(CMD_MKLIBDIR)" ++ nl;
              tab ++ "-" ++ prefix ctx ++ "$(CMD_MKOUTDIR)" ++ nl;
              tab ++ "-" ++ prefix ctx
              ++ "if [ ! -d $(OUTDIR)/$(MACAPP)/MacOS ]; then mkdir -p $(OUTDIR)/$(MACAPP)/MacOS; fi"
              ++ nl;
              tab ++ prefix ctx ++ "$(BLDCMD)" ++ nl ++ nl;
              "$(OUTDIR)/$(MACAPP)/PkgInfo:" ++ nl ++ nl;
              "$(OUTDIR)/$(MACAPP)/Info.plist:" ++ nl ++ nl ]%string)%list)
  /\ (os_is ctx "macosx" && prj_is_kind pkg "winexe" = false ->
      wr (emit_target ctx pkg s)
      = [ if prj_is_kind pkg "cxxtestgen" then "  TARGET := $(OBJECTS)" ++ nl
          else "  TARGET := " ++ path_getname (target (my_cfg pkg s)) ++ nl ]
      /\ (kind pkg <> "cxxtestgen" -> kind pkg <> "run" ->
          wr (gnu_cpp_main_target ctx pkg s')
          = ([ "$(OUTDIR)/$(TARGET)";
               ": $(OBJECTS) $(LDDEPS) $(RESOURCES)" ++ nl ]%string
             ++ (if g_verbose ctx then []
                 else [(tab ++ "@echo Linking " ++ pkgname pkg ++ nl)%string])
             ++ [ tab ++ "-" ++ prefix ctx ++ "$(CMD_MKBINDIR)" ++ nl;
                  tab ++ "-" ++ prefix ctx ++ "$(CMD_MKLIBDIR)" ++ nl;
                  tab ++ "-" ++ prefix ctx ++ "$(CMD_MKOUTDIR)" ++ nl;
                  tab ++ prefix ctx ++ "$(BLDCMD)" ++ nl ++ nl ]%string)%list)).
Proof.
  split.
  - intros Hos Hk. rewrite wr_emit_target.
    unfold gnu_cpp_main_target, prj_is_kind, matches, when. rewrite Hos, Hk.
    cbn [String.eqb Ascii.eqb Bool.eqb andb].
    split; [reflexivity|]. rewrite !wr_bind.
    destruct (g_verbose ctx); reflexivity.
  - intros Hc. rewrite wr_emit_target, Hc. split; [reflexivity|].
    intros K1 K2. apply String.eqb_neq in K1, K2.
    unfold gnu_cpp_main_target, when. rewrite Hc.
    unfold prj_is_kind, matches. rewrite K1, K2. rewrite !wr_bind.
    destruct (g_verbose ctx); reflexivity.
Qed.

(** X14: The main target of a test generator is [all] and runs the root
    generator; that of a run target is the target file and runs the build
    command at once, with no directory made first.  Neither announces the
    link step. *)
Theorem main_target_of_generator_and_run (s : State) :
  (kind pkg = "cxxtestgen" ->
   wr (gnu_cpp_main_target ctx pkg s)
   = [ "all"; ": $(OBJECTS) $(LDDEPS) $(RESOURCES)" ++ nl;
       tab ++ "@" ++ cxxtestpath pkg ++ " --root";
       " " ++ cxxtest_rootoptions pkg ++ " ";
       " -o " ++ cxxtest_rootfile pkg ++ nl ++ nl ])
  /\ (kind pkg = "run" ->
      wr (gnu_cpp_main_target ctx pkg s)
      = [ "$(OUTDIR)/$(TARGET)"; ": $(OBJECTS) $(LDDEPS) $(RESOURCES)" ++ nl;
          tab ++ prefix ctx ++ "$(BLDCMD)" ++ nl ++ nl ]).
Proof.
  unfold gnu_cpp_main_target, prj_is_kind, matches, when.
  split; intros ->; cbn [String.eqb Ascii.eqb Bool.eqb andb];
    rewrite !andb_false_r; reflexivity.
Qed.

(** ** The scratch buffer is shared (lines 319-321) *)

(** X15: The token [filterLinks] returns for an external library lives in the
    scratch buffer: read at once it is [-l] and the name, read after the
    next such call it is the token of that call. *)
Theorem filterLinks_result_is_overwritten (a b : string) (s : State) :
  (prj_find_package prj a < 0)%Z ->
  (prj_find_package prj b < 0)%Z ->
  val (filterLinks prj a s) = PBuf
  /\ deref (st (filterLinks prj a s)) (val (filterLinks prj a s)) = Some ("-l" ++ a)
  /\ deref (st (filterLinks prj b (st (filterLinks prj a s)))) (val (filterLinks prj a s))
     = Some ("-l" ++ b).
Proof.
  intros Ha Hb. apply Z.leb_gt in Ha, Hb.
  unfold filterLinks. cbv zeta. rewrite Ha, Hb. repeat split.
Qed.

(** ** The order of the sections (lines 34-290) *)












(** ** Links and dependencies together (lines 299-323, 503-516) *)

(** X17: Whatever sibling path goes on the link line is also a link
    dependency: a reference to a sibling never yields a link token without
    the same path in the dependency list. *)
Theorem linked_sibling_is_dependency (name t : string) (s : State) :
  (0 <= prj_find_package prj name)%Z ->
  returned (filterLinks prj name s) = Some t ->
  returned (listLinkerDeps prj name s) = Some t
  /\ (In name (links pkg) -> In (" " ++ t) (wr (emit_lddeps prj pkg s))).
Proof.
  intros Hi Hf.
  assert (Hd : returned (listLinkerDeps prj name s) = Some t).
  { rewrite returned_filterLinks in Hf. rewrite returned_listLinkerDeps.
    cbv zeta in *. apply Z.leb_le in Hi. rewrite Hi in *.
    destruct (prj_get_kind_for prj (prj_find_package prj name) =? "cxxtestgen");
      [discriminate|].
    destruct (_ || _); [exact Hf|discriminate]. }
  split; [exact Hd|].
  intros Hin. rewrite wr_emit_lddeps. right. apply in_or_app. left.
  apply in_map. now apply filter_map_In with (x := name).
Qed.

End Flags.

(** ** Guards tell configurations apart *)

Lemma length_append (a b : string) :
  String.length (a ++ b) = String.length a + String.length b.
Proof. induction a as [|x a IH]; simpl; [reflexivity|now rewrite IH]. Qed.

Lemma append_cancel_l (a x y : string) : a ++ x = a ++ y -> x = y.
Proof. induction a as [|c a IH]; simpl; [trivial|]. intros [= H]. auto. Qed.

Lemma append_cancel_r (b : string) : forall x y, x ++ b = y ++ b -> x = y.
Proof.
  induction x as [|c x IH]; intros [|d y] H; simpl in H.
  - reflexivity.
  - apply (f_equal String.length) in H. simpl in H. rewrite length_append in H. lia.
  - apply (f_equal String.length) in H. simpl in H. rewrite length_append in H. lia.
  - injection H as -> H. f_equal. auto.
Qed.

(** X18: Configurations with different names get different guards, so with
    unique names no two blocks of a makefile answer to the same CONFIG. *)
Theorem distinct_names_distinct_guards {U : Externals}
    (ctx : PlatformContext) (prj : Project) (pkg : Package) (s : State) :
  NoDup (map cfgname (configs pkg)) ->
  NoDup (filter is_config_guard (wr (gnu_cpp_configs ctx prj pkg s))).
Proof.
  intros Hn.
  rewrite guards_of_gnu_cpp_configs.
  induction (configs pkg) as [|c l IH]; [constructor|].
  cbn [map] in *. inversion Hn as [|? ? Hnotin Hl]; subst.
  constructor; [|auto].
  intros Hin. apply Hnotin. apply in_map_iff in Hin as (c' & E & Hc').
  apply in_map_iff. exists c'. split; [|exact Hc'].
  unfold config_guard in E.
  apply append_cancel_l in E. now apply append_cancel_r in E.
Qed.

(** ** Percent signs in the recipes (lines 411 and 434) *)

(** A printf format that needs no argument: every percent sign is one
    half of a doubled one. *)
Fixpoint percent_escaped (s : string) : bool :=
  match s with
  | EmptyString => true
  | String c r =>
      if Ascii.eqb c "%" then
        match r with
        | String d r' => Ascii.eqb d "%" && percent_escaped r'
        | EmptyString => false
        end
      else percent_escaped r
  end.

Fixpoint no_percent (s : string) : bool :=
  match s with
  | EmptyString => true
  | String c r => negb (Ascii.eqb c "%") && no_percent r
  end.

Lemma percent_escaped_skip (p q : string) :
  no_percent p = true -> percent_escaped (p ++ q) = percent_escaped q.
Proof.
  induction p as [|c p IH]; intros H; [reflexivity|].
  cbn [no_percent] in H. apply andb_prop in H as (Hc & Hp).
  cbn [append percent_escaped]. apply negb_true_iff in Hc. rewrite Hc. auto.
Qed.

Lemma no_percent_app (p q : string) :
  no_percent (p ++ q) = no_percent p && no_percent q.
Proof.
  induction p as [|c p IH]; [reflexivity|].
  cbn [append no_percent]. rewrite IH. apply andb_assoc.
Qed.

(** Text that is no such format stays none whatever is put before it,
    unless it starts with the second half of a doubled percent sign. *)
Lemma percent_escaped_tail (c : ascii) (q : string) :
  Ascii.eqb c "%" = false ->
  percent_escaped (String c q) = false ->
  forall n p, String.length p <= n -> percent_escaped (p ++ String c q) = false.
Proof.
  intros Hc Hq. induction n as [|n IH]; intros p Hn.
  - destruct p; [exact Hq|simpl in Hn; lia].
  - destruct p as [|a p]; [exact Hq|].
    cbn [append percent_escaped]. simpl in Hn.
    destruct (Ascii.eqb a "%"); [|apply IH; lia].
    destruct p as [|b p]; cbn [append].
    + now rewrite Hc.
    + destruct (Ascii.eqb b "%"); [|reflexivity].
      cbn [andb]. apply IH. simpl in Hn. lia.
Qed.

Section Escapes.

Context {U : Externals}.
Variable ctx : PlatformContext.
Variable pkg : Package.

Lemma percent_escaped_preamble (q : string) :
  percent_escaped (rule_preamble ctx ++ q) = percent_escaped q.
Proof.
  unfold rule_preamble, prefix. destruct (g_verbose ctx); reflexivity.
Qed.

(** X19: With a toolchain other than dmc, the rule [listCppTargets]
    returns for a netwide-assembler source is never a printf format that
    needs no argument: the [.d] of line 434 follows a single percent sign.
    The rule it returns for a C source whose path holds no percent sign is
    such a format: line 411 doubles every percent sign. *)
Theorem asm_rule_has_unescaped_percent (name : string) (s : State) :
  matches (g_cc ctx) "dmc" = false ->
  is_cpp name = true ->
  (path_getextension name = Some ".asm" ->
   exists rule, returned (listCppTargets ctx pkg name s) = Some rule
                /\ percent_escaped rule = false)
  /\ (path_getextension name = Some ".c" ->
      no_percent name = true -> no_percent (path_getbasename name) = true ->
      exists rule, returned (listCppTargets ctx pkg name s) = Some rule
                   /\ percent_escaped rule = true).
Proof.
  intros Hcc Hc. split.
  - intros He.
    destruct (command_text_gcc ctx name Hcc He) as (_ & _ & H & _).
    rewrite (returned_listCppTargets_compilable ctx pkg name s Hc), (H eq_refl).
    eexists. split; [reflexivity|].
    set (q := " -M -o $@ $< >$(OBJDIR)/$(<F:%%.asm=%.d)" ++ nl).
    rewrite <- !append_assoc.
    match goal with
    | |- percent_escaped (?p ++ q) = false =>
        exact (@percent_escaped_tail " "
                 ("-M -o $@ $< >$(OBJDIR)/$(<F:%%.asm=%.d)" ++ nl)
                 eq_refl eq_refl (String.length p) p (le_n _))
    end.
  - intros He Hn Hb.
    destruct (command_text_gcc ctx name Hcc He) as (_ & H & _).
    rewrite (returned_listCppTargets_compilable ctx pkg name s Hc), (H eq_refl).
    eexists. split; [reflexivity|].
    rewrite percent_escaped_skip, percent_escaped_preamble; [reflexivity|].
    unfold rule_target. rewrite !no_percent_app, Hn, Hb. reflexivity.
Qed.

End Escapes.

(** * Worked examples *)

Module Examples.

(** Path utilities for slash-separated paths, used to run the emitter. *)

Fixpoint from_last (c : ascii) (s : string) : option string :=
  match s with
  | EmptyString => None
  | String a r =>
      match from_last c r with
      | Some t => Some t
      | None => if Ascii.eqb a c then Some s else None
      end
  end.

Fixpoint before_last (c : ascii) (s : string) : option string :=
  match s with
  | EmptyString => None
  | String a r =>
      match before_last c r with
      | Some t => Some (String a t)
      | None => if Ascii.eqb a c then Some EmptyString else None
      end
  end.

Definition slash_getname (p : string) : string :=
  match from_last "/" p with
  | Some (String _ r) => r
  | _ => p
  end.

Definition slash_getbasename (p : string) : string :=
  match before_last "." (slash_getname p) with
  | Some b => b
  | None => slash_getname p
  end.

Definition slash_getdir (p : string) : string :=
  match before_last "/" p with
  | Some d => d
  | None => ""
  end.

Definition slash_join (a b c : string) : string :=
  if String.eqb a "" then b ++ c else a ++ "/" ++ b ++ c.

Definition slash_swapextension (p old new : string) : string :=
  substring 0 (String.length p - String.length old) p ++ new.

#[local] Instance slash_paths : Externals := {|
  path_join := slash_join;
  path_getname := slash_getname;
  path_getbasename := slash_getbasename;
  path_getextension := from_last ".";
  path_getdir := slash_getdir;
  path_translate := fun p _ => p;
  path_swapextension := slash_swapextension;
  gnu_pkgOwnsPath := fun _ _ => true;
  CPP_EXT := [".cc"; ".cpp"; ".cxx"; ".c"; ".s"; ".asm"];
  DOT_MAKE := ".make"
|}.

Definition windows_gcc : PlatformContext := mkPlatform "windows" (Some "gcc") false.
Definition linux_gcc : PlatformContext := mkPlatform "linux" (Some "gcc") false.

Definition fresh : State := mkState 0 "" None.

Definition debug (fl : list string) (tgt : string) : Config :=
  mkConfig "Debug" "bin" "lib" "obj/Debug" "bin" ["DEBUG"] ["include"] fl [] [] [] tgt.

Definition release (fl : list string) (tgt : string) : Config :=
  mkConfig "Release" "bin" "lib" "obj/Release" "bin" ["NDEBUG"] ["include"] fl [] [] [] tgt.

Definition package (name lang knd : string) (cfgs : list Config)
    (srcs lnks : list string) : Package :=
  mkPackage name name lang knd cfgs srcs lnks "cxxtestgen.pl" "" "" "test_root.cpp".

(** An executable with a C++, a C and a resource source, linking a
    sibling static library, a sibling test generator, a sibling of
    another language and an external library. *)
Definition app : Package :=
  package "app" "c++" "exe"
    [debug [] "bin/app"; release ["optimize"; "no-symbols"] "bin/app"]
    ["src/a.cpp"; "src/b.c"; "src/x.rc"; "src/a.h"]
    ["core"; "tests"; "bindings"; "z"].

Definition core : Package :=
  package "core" "c" "lib"
    [debug [] "lib/libcore.a"; release [] "lib/libcore.a"] ["core/c.c"] [].

Definition tests : Package :=
  package "tests" "c++" "cxxtestgen" [debug [] "tests"; release [] "tests"] ["t/t.h"] [].

Definition bindings : Package :=
  package "bindings" "c#" "dll"
    [debug [] "bin/bindings.dll"; release [] "bin/bindings.dll"] ["b/b.cs"] [].

(** A package whose kind is none of the recognized ones. *)
Definition plugin : Package :=
  package "plugin" "c++" "plugin" [debug [] "bin/plugin"] ["p.cpp"] [].

(** A package asking for both size and speed optimization. *)
Definition greedy : Package :=
  package "greedy" "c" "exe"
    [debug ["optimize"; "optimize-size"; "optimize-speed"] "bin/greedy"] ["g.c"] [].

Definition solution : Project := [app; core; tests; bindings; plugin; greedy].

(** C1 fails as stated: with optimize-size and optimize-speed both set,
    the size token and the speed token are both printed. *)
Lemma size_and_speed_both_printed :
  wr (emit_optimize greedy fresh) = [" -Os"; " -O3"]
  /\ ~ length (wr (emit_optimize greedy fresh)) <= 1.
Proof. split; [reflexivity|]. simpl. lia. Qed.

Lemma optimize_tokens_precedence_witness :
  In " -O2" (wr (emit_optimize app (mkState 1 "" None)))
  /\ wr (emit_optimize app (mkState 1 "" None)) = [" -O2"].
Proof.
  assert (H : In " -O2" (wr (emit_optimize app (mkState 1 "" None))))
    by (simpl; auto).
  split; [exact H|].
  exact (proj1 (proj2 (proj2 (proj2 (optimize_tokens_precedence app (mkState 1 "" None))))) H).
Defined.

(** C2 fails as stated: the package of unrecognized kind does get a build
    command, the C++ link driver. *)
Lemma unrecognized_kind_gets_link_command :
  recognized_kind (kind plugin) = false
  /\ wr (emit_bldcmd plugin fresh)
     = ["  BLDCMD = ";
        "$(CXX) -o $(OUTDIR)/$(TARGET) $(OBJECTS) $(LDFLAGS) $(RESOURCES)"; nl]
  /\ wr (emit_bldcmd plugin fresh) <> ["  BLDCMD = "; nl].
Proof. repeat split. discriminate. Qed.

Lemma bldcmd_unrecognized_kind_witness :
  recognized_kind (kind plugin) = false
  /\ wr (emit_bldcmd plugin fresh) = ["  BLDCMD = "; link_command plugin; nl].
Proof.
  split; [reflexivity|].
  apply (bldcmd_unrecognized_kind plugin fresh). reflexivity.
Defined.

Lemma bldcmd_by_kind_witness :
  kind core = "lib"
  /\ wr (emit_bldcmd core fresh)
     = ["  BLDCMD = ";
        "ar -cr $(OUTDIR)/$(TARGET) $(OBJECTS); ranlib $(OUTDIR)/$(TARGET)"; nl].
Proof.
  split; [reflexivity|].
  apply (proj1 (bldcmd_by_kind core fresh)). reflexivity.
Defined.

Lemma link_reference_resolution_witness :
  prj_find_package solution "core" = 1%Z
  /\ returned (filterLinks solution "core" fresh) = Some "lib/libcore.a"
  /\ In " lib/libcore.a" (wr (emit_lddeps solution app fresh))
  /\ returned (filterLinks solution "tests" fresh) = None
  /\ returned (filterLinks solution "z" fresh) = Some "-lz"
  /\ returned (listLinkerDeps solution "z" fresh) = None.
Proof.
  split; [reflexivity|].
  pose proof (link_reference_resolution solution app "core" fresh
                (eq_refl : prj_find_package solution "core" = 1%Z)) as (Hc & _ & _).
  pose proof (link_reference_resolution solution app "tests" fresh
                (eq_refl : prj_find_package solution "tests" = 2%Z)) as (_ & Ht & _).
  pose proof (link_reference_resolution solution app "z" fresh
                (eq_refl : prj_find_package solution "z" = (-1)%Z)) as (_ & _ & Hz).
  destruct Hc as (Hc1 & _ & Hc3); [lia|discriminate|right; reflexivity|].
  destruct Ht as (Ht1 & _); [lia|reflexivity|].
  destruct Hz as (Hz1 & Hz2); [lia|].
  split; [exact Hc1|]. split; [apply Hc3; simpl; auto|].
  split; [exact Ht1|]. split; [exact Hz1|exact Hz2].
Defined.

Lemma link_dependency_ignores_language_witness :
  prj_get_language_for solution 3 = "c#"
  /\ returned (listLinkerDeps solution "bindings" fresh) = Some "bin/bindings.dll"
  /\ returned (filterLinks solution "bindings" fresh) = None.
Proof.
  split; [reflexivity|].
  destruct (link_dependency_ignores_language solution "bindings" fresh
              (eq_refl : prj_find_package solution "bindings" = 3%Z))
    as (Hd & _ & Hf); [lia|discriminate|].
  split; [exact Hd|]. apply Hf; discriminate.
Defined.

Lemma default_config_is_first_witness :
  exists header rest,
    wr (gnu_cpp windows_gcc solution app fresh)
    = (header
       ++ [ "ifndef CONFIG" ++ nl; "  CONFIG=Debug" ++ nl; "endif" ++ nl ++ nl ]%string
       ++ wr (gnu_cpp_configs windows_gcc solution app fresh) ++ rest)%list.
Proof.
  destruct (default_config_is_first windows_gcc solution app fresh
              (eq_refl : configs app = _ :: _)) as (_ & header & rest & E & _).
  exists header, rest. exact E.
Defined.

Lemma object_list_counts_compilable_witness :
  kind app <> "cxxtestgen"
  /\ length (list_entries (wr (gnu_cpp_objects app fresh))) = 2.
Proof.
  split; [discriminate|].
  apply (proj2 (object_list_counts_compilable app fresh ltac:(discriminate))).
Defined.

(** The same sources built with the Digital Mars compiler. *)
Definition windows_dmc : PlatformContext := mkPlatform "windows" (Some "dmc") false.

Lemma one_rule_per_object_witness :
  kind app <> "cxxtestgen"
  /\ length (wr (gnu_cpp_rules windows_gcc app fresh)) = 2
  /\ length (wr (gnu_cpp_rules windows_gcc app fresh))
     = length (list_entries (wr (gnu_cpp_objects app fresh))).
Proof.
  split; [discriminate|].
  apply (proj2 (one_rule_per_object windows_gcc app fresh fresh ltac:(discriminate))).
Defined.

Lemma dmc_assembly_rule_is_empty_witness :
  is_cpp "src/boot.s" = true /\ command_text windows_dmc "src/boot.s" = "".
Proof.
  split; [reflexivity|].
  apply (dmc_assembly_rule_is_empty windows_dmc app "src/boot.s" fresh); reflexivity.
Defined.

Lemma dmc_compile_commands_witness :
  path_getextension "src/fast.asm" = Some ".asm"
  /\ returned (listCppTargets windows_dmc app "src/fast.asm" fresh)
     = Some (rule_target "src/fast.asm" ++ rule_preamble windows_dmc
             ++ "dmc -cpp -Ae -Ar -mn $(CXXFLAGS) -o $@ -c $<" ++ nl).
Proof.
  split; [reflexivity|].
  destruct (dmc_compile_commands windows_dmc app "src/fast.asm" (e := ".asm") fresh)
    as (_ & H); [reflexivity|reflexivity|reflexivity|].
  apply H; discriminate.
Defined.

Lemma gcc_compile_commands_witness :
  path_getextension "src/a.cpp" = Some ".cpp"
  /\ returned (listCppTargets linux_gcc app "src/a.cpp" fresh)
     = Some (rule_target "src/a.cpp" ++ rule_preamble linux_gcc
             ++ "$(CXX) $(CXXFLAGS) -MF $(OBJDIR)/a.d -o $@ -c $<" ++ nl).
Proof.
  split; [reflexivity|].
  destruct (gcc_compile_commands linux_gcc app "src/a.cpp" (e := ".cpp") fresh)
    as (_ & _ & _ & H); [reflexivity|reflexivity|reflexivity|].
  apply H; discriminate.
Defined.

Lemma generator_rule_without_object_witness :
  kind tests = "cxxtestgen"
  /\ returned (listCppTargets linux_gcc tests "t/notes.txt" fresh)
     = Some (generator_rule linux_gcc tests "t/notes.txt")
  /\ returned (listCxxTestSources "t/notes.txt" fresh) = None.
Proof.
  split; [reflexivity|].
  destruct (generator_rule_without_object linux_gcc tests "t/notes.txt" fresh)
    as (Hr & Ho); [reflexivity|reflexivity|].
  split; [exact Hr|]. apply Ho. reflexivity.
Defined.

Lemma generator_object_list_witness :
  kind tests = "cxxtestgen"
  /\ wr (gnu_cpp_objects tests fresh)
     = [ "OBJECTS := " ++ bs ++ nl; tab ++ "t/t.cpp " ++ bs ++ nl; nl ].
Proof.
  split; [reflexivity|].
  rewrite (generator_object_list tests fresh); reflexivity.
Defined.

Lemma other_language_tagged_c_linked_cxx_witness :
  language bindings = "c#" /\ kind bindings = "dll"
  /\ hd "" (wr (gnu_cpp_header bindings fresh)) = "# C "
  /\ wr (emit_bldcmd bindings fresh)
     = [ "  BLDCMD = ";
         "$(CXX) -o $(OUTDIR)/$(TARGET) $(OBJECTS) $(LDFLAGS) $(RESOURCES)"; nl ].
Proof.
  split; [reflexivity|]. split; [reflexivity|].
  apply (other_language_tagged_c_linked_cxx bindings fresh fresh); discriminate.
Defined.

(** A windowed executable on macosx. *)
Definition macosx_gcc : PlatformContext := mkPlatform "macosx" (Some "gcc") false.

Definition editor : Package :=
  package "editor" "c++" "winexe" [debug [] "bin/editor"] ["e.cpp"] [].

Lemma macapp_bundle_target_witness :
  os_is macosx_gcc "macosx" = true /\ kind editor = "winexe"
  /\ wr (emit_target macosx_gcc editor fresh)
     = [ "  TARGET := editor" ++ nl; "  MACAPP := editor.app/Contents" ++ nl ].
Proof.
  split; [reflexivity|]. split; [reflexivity|].
  destruct (proj1 (macapp_bundle_target macosx_gcc editor fresh fresh) eq_refl eq_refl)
    as (H & _).
  exact H.
Defined.

Lemma main_target_of_generator_and_run_witness :
  kind tests = "cxxtestgen"
  /\ hd "" (wr (gnu_cpp_main_target linux_gcc tests fresh)) = "all".
Proof.
  split; [reflexivity|].
  rewrite (proj1 (main_target_of_generator_and_run linux_gcc tests fresh)); reflexivity.
Defined.

Lemma filterLinks_result_is_overwritten_witness :
  deref (st (filterLinks solution "m" (st (filterLinks solution "z" fresh))))
    (val (filterLinks solution "z" fresh)) = Some "-lm".
Proof.
  apply (filterLinks_result_is_overwritten solution "z" "m" fresh); reflexivity.
Defined.

Lemma linked_sibling_is_dependency_witness :
  returned (filterLinks solution "core" fresh) = Some "lib/libcore.a"
  /\ returned (listLinkerDeps solution "core" fresh) = Some "lib/libcore.a".
Proof.
  split; [reflexivity|].
  apply (linked_sibling_is_dependency solution app "core" fresh);
    [discriminate|reflexivity].
Defined.

Lemma distinct_names_distinct_guards_witness :
  NoDup (map cfgname (configs app))
  /\ NoDup (filter is_config_guard (wr (gnu_cpp_configs windows_gcc solution app fresh))).
Proof.
  assert (H : NoDup (map cfgname (configs app))).
  { repeat constructor; simpl; intuition discriminate. }
  split; [exact H|].
  apply (distinct_names_distinct_guards windows_gcc solution app fresh H).
Defined.

Lemma header_describes_recognized_kinds_witness :
  recognized_kind (kind plugin) = false
  /\ wr (gnu_cpp_header plugin fresh)
     = [ "# C++ "; " Makefile autogenerated by premake" ++ nl;
         "# Don't edit this file! Instead edit `premake.lua` then rerun `make`"
         ++ nl ++ nl ].
Proof.
  split; [reflexivity|].
  apply (proj2 (header_describes_recognized_kinds plugin fresh)). reflexivity.
Defined.

Lemma asm_rule_has_unescaped_percent_witness :
  is_cpp "src/fast.asm" = true
  /\ exists rule,
       returned (listCppTargets linux_gcc app "src/fast.asm" fresh) = Some rule
       /\ percent_escaped rule = false.
Proof.
  split; [reflexivity|].
  destruct (asm_rule_has_unescaped_percent linux_gcc app "src/fast.asm" fresh)
    as (H & _); [reflexivity|reflexivity|].
  apply H. reflexivity.
Defined.

End Examples.
